(** * Terrain tile provisioning and geospatial compositing: the [Splat] service

    A shallow embedding of [app/services/splat.py] and the properties its
    specification states about it.

    Modelling conventions.
    - Python [str] and [bytes] are Rocq [string]s (sequences of 8-bit
      characters); Python [int] is [Z].
    - Python [float] is idealised as an exact rational [Q]: every finite
      double is a rational, arithmetic is taken without rounding, and NaN and
      the infinities are outside the model.  Division raises
      [ZeroDivisionError] on a zero divisor, as in Python.  The two
      transcendental functions the code calls ([math.cos], float [**]) are
      the platform's, and are taken as a parameter [libm].
    - Exceptions are values of [exn]; code that can raise returns a [result];
      code that also touches the file system, the tile cache, the object
      store or a subprocess is a state transformer over [world].
    - External collaborators (object store, gzip, raster library, codec and
      simulation binaries, colour maps) are the fields of [env]; every call
      to one is recorded in the [events] log of the world, so that "no
      network request" and "codec runs after downsampling" are statements
      about that log. *)

From Stdlib Require Import ZArith QArith Qround Qabs Lia Lqa.
From Stdlib Require Import Strings.String Strings.Ascii.
From Stdlib Require Import Numbers.DecimalString Numbers.DecimalZ Numbers.DecimalN Numbers.DecimalPos.
From stdpp Require Import base gmap strings list.

Open Scope Z_scope.

(* ===================================================================== *)
(** * Exceptions and results *)
(* ===================================================================== *)

(** The exception classes the module can meet.  [FileNotFoundError] and
    [PermissionError] are subclasses of [OSError] (of which [IOError] is an
    alias); every class below is a subclass of [Exception]. *)
Inductive exn_class :=
  | AttributeError | KeyError | TypeError | ValueError | ZeroDivisionError
  | OSError | FileNotFoundError | PermissionError
  | ClientError | BadGzipFile | RasterioIOError | CalledProcessError
  | ParseError | UnidentifiedImageError
  | RuntimeError.

Record exn := Exn { exn_cls : exn_class; exn_msg : string }.

Definition is_OSError (c : exn_class) : bool :=
  match c with
  | OSError | FileNotFoundError | PermissionError | BadGzipFile => true
  | _ => false
  end.

Definition is_CalledProcessError (c : exn_class) : bool :=
  match c with CalledProcessError => true | _ => false end.

Inductive result (A : Type) :=
  | Ok (a : A)
  | Raise (e : exn).
Arguments Ok {A} a.
Arguments Raise {A} e.

Definition rbind {A B} (r : result A) (k : A → result B) : result B :=
  match r with Ok a => k a | Raise e => Raise e end.

Definition is_ok {A} (r : result A) : bool :=
  match r with Ok _ => true | Raise _ => false end.

Definition raises {A} (c : exn_class) (r : result A) : Prop :=
  match r with Ok _ => False | Raise e => exn_cls e = c end.

(* ===================================================================== *)
(** * Text: integers and strings as Python renders and reads them *)
(* ===================================================================== *)

(** [str(z)] and [f"{z}"] for an [int]. *)
Definition str_int (z : Z) : string := NilEmpty.string_of_int (Z.to_int z).

Fixpoint zeros (n : nat) : string :=
  match n with
  | O => EmptyString
  | S k => String "0" (zeros k)
  end.

(** [f"{z:0{width}d}"]: sign, then zero padding up to [width], then digits. *)
Definition format_0d (width : nat) (z : Z) : string :=
  let digits := str_int (Z.abs z) in
  let sign := if z <? 0 then "-" else "" in
  sign +:+ zeros (width - String.length sign - String.length digits) +:+ digits.

Definition is_digit (c : ascii) : bool :=
  let n := nat_of_ascii c in (48 <=? n)%nat && (n <=? 57)%nat.

Definition is_space (c : ascii) : bool :=
  let n := nat_of_ascii c in
  (n =? 32)%nat || ((9 <=? n)%nat && (n <=? 13)%nat).

Fixpoint lstrip (s : string) : string :=
  match s with
  | String c r => if is_space c then lstrip r else s
  | EmptyString => EmptyString
  end.

Fixpoint string_rev_acc (s acc : string) : string :=
  match s with
  | EmptyString => acc
  | String c r => string_rev_acc r (String c acc)
  end.

Definition strip (s : string) : string :=
  string_rev_acc (lstrip (string_rev_acc (lstrip s) "")) "".

(** Digits of a decimal literal, most significant first, with the single
    underscores Python allows between two digits.  [prev] tells whether the
    previous character was a digit. *)
Fixpoint parse_digits (s : string) (prev : bool) (acc : Z) : option Z :=
  match s with
  | EmptyString => if prev then Some acc else None
  | String c r =>
      if is_digit c then
        parse_digits r true (10 * acc + (Z.of_nat (nat_of_ascii c) - 48))
      else if Ascii.eqb c "_" then
        if prev then parse_digits r false acc else None
      else None
  end.

(** [int(s)] for a [str]: surrounding white space, an optional sign, decimal
    digits.  [None] is [ValueError]. *)
Definition py_int (s : string) : option Z :=
  match strip s with
  | String "-" r => option_map Z.opp (parse_digits r false 0)
  | String "+" r => parse_digits r false 0
  | t => parse_digits t false 0
  end.

(** [s[i:j]] for [0 <= i <= j]. *)
Definition slice (i j : nat) (s : string) : string := String.substring i (j - i) s.

Fixpoint string_prefix (p s : string) : bool :=
  match p, s with
  | EmptyString, _ => true
  | String a p', String b s' => Ascii.eqb a b && string_prefix p' s'
  | String _ _, EmptyString => false
  end.

(** [needle in s]. *)
Fixpoint contains (needle s : string) : bool :=
  string_prefix needle s ||
  match s with
  | EmptyString => false
  | String _ r => contains needle r
  end.

Fixpoint drop_chars (n : nat) (s : string) : string :=
  match n, s with
  | O, _ => s
  | S k, String _ r => drop_chars k r
  | S _, EmptyString => EmptyString
  end.

(** [s.replace(old, new)] for a non-empty [old]; [fuel] bounds the scan and
    [String.length s] is always enough. *)
Fixpoint replace_fuel (fuel : nat) (old new s : string) : string :=
  match fuel with
  | O => s
  | S f =>
      match s with
      | EmptyString => EmptyString
      | String c r =>
          if string_prefix old s
          then new +:+ replace_fuel f old new (drop_chars (String.length old) s)
          else String c (replace_fuel f old new r)
      end
  end.

Definition replace (old new s : string) : string :=
  replace_fuel (String.length s) old new s.

(** [os.path.join(a, b)] on POSIX. *)
Definition last_char (s : string) : option ascii :=
  match string_rev_acc s "" with
  | String c _ => Some c
  | EmptyString => None
  end.

Definition path_join (a b : string) : string :=
  if string_prefix "/" b then b
  else match last_char a with
       | None => b
       | Some c => if Ascii.eqb c "/" then a +:+ b else a +:+ "/" +:+ b
       end.

(** Every character of [s] satisfies [P]. *)
Fixpoint all_chars (P : ascii → bool) (s : string) : bool :=
  match s with
  | EmptyString => true
  | String c r => P c && all_chars P r
  end.

Definition not_colon (c : ascii) : bool := negb (Ascii.eqb c ":").

(** The value of a digit string, leading zeros allowed. *)
Definition digits_value (s : string) : option Z :=
  option_map Z.of_uint (NilEmpty.uint_of_string s).

(** [range(a, b)]. *)
Definition py_range (a b : Z) : list Z := seqZ a (b - a).

(* ===================================================================== *)
(** * Tile identifiers *)
(* ===================================================================== *)

(** The three names the resolver gives a one-degree cell
    (loop body of [_calculate_required_terrain_tiles]). *)
Definition hgt_name (lat_tile lon_tile : Z) : string :=
  let ns := if 0 <=? lat_tile then "N" else "S" in
  let ew := if 0 <=? lon_tile then "E" else "W" in
  ns +:+ format_0d 2 (Z.abs lat_tile) +:+ ew +:+ format_0d 3 (Z.abs lon_tile)
     +:+ ".hgt.gz".

Definition sdf_stem (lat_start lon_start : Z) : string :=
  let lat_end := lat_start + 1 in
  let lon_end := lon_start + 1 in
  str_int lat_start +:+ ":" +:+ str_int lat_end +:+ ":" +:+
  str_int lon_start +:+ ":" +:+ str_int lon_end.

Definition sdf_name (lat_tile lon_tile : Z) : string :=
  sdf_stem lat_tile lon_tile +:+ ".sdf".

Definition sdf_hd_name (lat_tile lon_tile : Z) : string :=
  sdf_stem lat_tile lon_tile +:+ "-hd.sdf".

Record tile_lists := TileLists {
  tiles : list string;
  sdf_filenames : list string;
  sdf_hd_filenames : list string
}.

Definition loop_body (acc : tile_lists) (lat_tile lon_tile : Z) : tile_lists :=
  {| tiles := tiles acc ++ [hgt_name lat_tile lon_tile];
     sdf_filenames := sdf_filenames acc ++ [sdf_name lat_tile lon_tile];
     sdf_hd_filenames := sdf_hd_filenames acc ++ [sdf_hd_name lat_tile lon_tile] |}.

(** The two nested [for] loops over the floored bounds. *)
Definition tile_loop (lat_min_tile lat_max_tile lon_min_tile lon_max_tile : Z)
  : tile_lists :=
  foldl (fun acc lat_tile =>
           foldl (fun acc' lon_tile => loop_body acc' lat_tile lon_tile)
                 acc (py_range lon_min_tile (lon_max_tile + 1)))
        (TileLists [] [] [])
        (py_range lat_min_tile (lat_max_tile + 1)).

(** The returned dictionary: three keys, each bound to a set of names. *)
Definition tile_dict (l : tile_lists) : gmap string (gset string) :=
  <["hgt.gz" := list_to_set (tiles l)]>
  (<["sdf" := list_to_set (sdf_filenames l)]>
  (<["hd-sdf" := list_to_set (sdf_hd_filenames l)]> ∅)).

(** The cells the loops visit, in visiting order. *)
Definition covered_cells (lat_min_tile lat_max_tile lon_min_tile lon_max_tile : Z)
  : list (Z * Z) :=
  lat_tile ← py_range lat_min_tile (lat_max_tile + 1);
  lon_tile ← py_range lon_min_tile (lon_max_tile + 1);
  [(lat_tile, lon_tile)].

(* ===================================================================== *)
(** * Floats *)
(* ===================================================================== *)

(** The platform's mathematics library. *)
Record libm := Libm {
  m_cos : Q → Q;
  m_pow : Q → Q → Q
}.

(** [math.pi], the double nearest to pi, as the rational it is. *)
Definition math_pi : Q := 884279719003555 # 281474976710656.

Definition math_radians (x : Q) : Q := (x * (math_pi / 180))%Q.

(** Float division. *)
Definition py_div (x y : Q) : result Q :=
  if Qeq_bool y 0 then Raise (Exn ZeroDivisionError "float division by zero")
  else Ok (x / y)%Q.

(** [math.floor]. *)
Definition math_floor (x : Q) : Z := Qfloor x.

Definition earth_radius : Z := 6378137.

Record bounding_box := BBox {
  lat_min : Q; lat_max : Q; lon_min : Q; lon_max : Q
}.

(** Lines 157-166: the bounding box of the coverage disc. *)
Definition bounding_box_of (lm : libm) (lat lon radius : Q) : result bounding_box :=
  let delta_deg := ((radius / inject_Z earth_radius) * (180 / math_pi))%Q in
  let lat_min := (lat - delta_deg)%Q in
  let lat_max := (lat + delta_deg)%Q in
  rbind (py_div delta_deg (m_cos lm (math_radians lat))) (fun d1 =>
  let lon_min := (lon - d1)%Q in
  rbind (py_div delta_deg (m_cos lm (math_radians lat))) (fun d2 =>
  let lon_max := (lon + d2)%Q in
  Ok (BBox lat_min lat_max lon_min lon_max))).

Definition _calculate_required_terrain_tiles (lm : libm) (lat lon radius : Q)
  : result (gmap string (gset string)) :=
  rbind (bounding_box_of lm lat lon radius) (fun box =>
  let lat_min_tile := math_floor (lat_min box) in
  let lat_max_tile := math_floor (lat_max box) in
  let lon_min_tile := math_floor (lon_min box) in
  let lon_max_tile := math_floor (lon_max box) in
  Ok (tile_dict (tile_loop lat_min_tile lat_max_tile lon_min_tile lon_max_tile))).

(** The cells of the floored box. *)
Definition box_cells (box : bounding_box) : list (Z * Z) :=
  covered_cells (math_floor (lat_min box)) (math_floor (lat_max box))
                (math_floor (lon_min box)) (math_floor (lon_max box)).

(** Appending the names of a list of cells to the three accumulators. *)
Definition extend_lists (acc : tile_lists) (cells : list (Z * Z)) : tile_lists :=
  {| tiles := tiles acc ++ ((fun c => hgt_name c.1 c.2) <$> cells);
     sdf_filenames := sdf_filenames acc ++ ((fun c => sdf_name c.1 c.2) <$> cells);
     sdf_hd_filenames :=
       sdf_hd_filenames acc ++ ((fun c => sdf_hd_name c.1 c.2) <$> cells) |}.

(** A set of names holds exactly one entry per cell of [cells]. *)
Definition one_entry_per_cell (name : Z → Z → string) (cells : list (Z * Z))
    (s : gset string) : Prop :=
  size s = length cells ∧
  (∀ c, c ∈ cells → name c.1 c.2 ∈ s) ∧
  (∀ n, n ∈ s → ∃ c, c ∈ cells ∧ n = name c.1 c.2 ∧
                ∀ c', c' ∈ cells → n = name c'.1 c'.2 → c' = c).

(** The half-open unit cell with south-west corner [(i, j)] meets the box. *)
Definition cell_meets_box (box : bounding_box) (i j : Z) : Prop :=
  ∃ x y : Q,
    (lat_min box <= x)%Q ∧ (x <= lat_max box)%Q ∧
    (lon_min box <= y)%Q ∧ (y <= lon_max box)%Q ∧
    (inject_Z i <= x)%Q ∧ (x < inject_Z (i + 1))%Q ∧
    (inject_Z j <= y)%Q ∧ (y < inject_Z (j + 1))%Q.

(** A coarse [libm] to run examples with: the cosine is the parabola through
    the zeros of the cosine at plus and minus [math_pi / 2], the power is
    taken at the integer part of the exponent. *)
Definition demo_libm : libm :=
  {| m_cos := fun x => (1 - (2 * x / math_pi) * (2 * x / math_pi))%Q;
     m_pow := fun b e => (b ^ Qfloor e)%Q |}.

(** What the resolver needs of the platform's cosine: it does not vanish at
    latitudes strictly between the poles. *)
Definition cos_nonzero (lm : libm) : Prop :=
  ∀ x : Q, (Qabs x < 90)%Q → ¬ (m_cos lm (math_radians x) == 0)%Q.

(* ===================================================================== *)
(** * The converter's view of a tile name *)
(* ===================================================================== *)

(** Lines 256-261 of [_convert_hgt_to_sdf]: the descriptor name predicted
    from the raw tile name.  [int] raises [ValueError] on a slice that is
    not a decimal literal. *)
Definition int_or_raise (s : string) : result Z :=
  match py_int s with
  | Some z => Ok z
  | None =>
      Raise (Exn ValueError ("invalid literal for int() with base 10: '" +:+ s +:+ "'"))
  end.

Definition predict_sdf_filename (tile_name : string) (high_resolution : bool)
  : result string :=
  rbind (int_or_raise (slice 1 3 tile_name)) (fun lat =>
  rbind (int_or_raise (slice 4 7 tile_name)) (fun lon0 =>
  let lon := lon0 * (if contains "W" tile_name then -1 else 1) in
  let lat_end := lat + 1 in
  let lon_end := lon + 1 in
  Ok (if high_resolution
      then str_int lat +:+ ":" +:+ str_int lat_end +:+ ":" +:+
           str_int lon +:+ ":" +:+ str_int lon_end +:+ "-hd.sdf"
      else str_int lat +:+ ":" +:+ str_int lat_end +:+ ":" +:+
           str_int lon +:+ ":" +:+ str_int lon_end +:+ ".sdf"))).

(** The name the resolver emits for a cell at the requested resolution. *)
Definition resolver_sdf_name (lat_tile lon_tile : Z) (high_resolution : bool) : string :=
  if high_resolution then sdf_hd_name lat_tile lon_tile else sdf_name lat_tile lon_tile.

(** [format_0d 2 n] is two digits that [int] reads back as [n]; likewise
    for three.  Checked by evaluation over the ranges where it holds. *)
Definition two_digit_ok (n : Z) : bool :=
  match format_0d 2 n with
  | String a (String b EmptyString) =>
      is_digit a && is_digit b &&
      match py_int (String a (String b EmptyString)) with
      | Some m => m =? n
      | None => false
      end
  | _ => false
  end.

Definition three_digit_ok (n : Z) : bool :=
  match format_0d 3 n with
  | String a (String b (String c EmptyString)) =>
      is_digit a && is_digit b && is_digit c &&
      match py_int (String a (String b (String c EmptyString))) with
      | Some m => m =? n
      | None => false
      end
  | _ => false
  end.

(* ===================================================================== *)
(** * Rendering floats and integers in fixed formats *)
(* ===================================================================== *)

Definition newline : ascii := ascii_of_nat 10.
Definition nl : string := String newline EmptyString.

Definition Qltb (x y : Q) : bool := negb (Qle_bool y x).

(** The integer nearest to [q], ties to the even one. *)
Definition round_half_even (q : Q) : Z :=
  let fl := Qfloor q in
  let twice_rest := (2 * (q - inject_Z fl))%Q in
  if Qltb twice_rest 1 then fl
  else if Qltb 1 twice_rest then fl + 1
  else if Z.even fl then fl else fl + 1.

Definition digit_char (d : Z) : ascii := ascii_of_nat (48 + Z.to_nat d).

(** The [k] low decimal digits of [n], most significant first. *)
Fixpoint fixed_digits (k : nat) (n : Z) : string :=
  match k with
  | O => EmptyString
  | S k' => fixed_digits k' (n / 10) +:+ String (digit_char (n mod 10)) EmptyString
  end.

(** [f"{x:.{prec}f}"] for a finite float: the sign of [x], the decimal
    expansion of the magnitude rounded to [prec] places, exactly [prec]
    digits after the point. *)
Definition format_f (prec : nat) (x : Q) : string :=
  let scaled := round_half_even (Qabs x * inject_Z (10 ^ Z.of_nat prec))%Q in
  let int_part := scaled / 10 ^ Z.of_nat prec in
  let frac_part := scaled mod 10 ^ Z.of_nat prec in
  (if Qltb x 0 then "-" else "") +:+ str_int int_part +:+
  match prec with
  | O => EmptyString
  | S _ => "." +:+ fixed_digits prec frac_part
  end.

Fixpoint spaces (n : nat) : string :=
  match n with
  | O => EmptyString
  | S k => String " " (spaces k)
  end.

(** [f"{z:{width}d}"] and, with [plus], [f"{z:+{width}d}"]: right-aligned
    in [width] columns, padded with spaces. *)
Definition format_d (plus : bool) (width : nat) (z : Z) : string :=
  let sign := if z <? 0 then "-" else if plus then "+" else "" in
  let body := sign +:+ str_int (Z.abs z) in
  spaces (width - String.length body) +:+ body.

(** [int(x)] for a float: truncation towards zero. *)
Definition int_of_float (x : Q) : Z :=
  if Qltb x 0 then - Qfloor (- x) else Qfloor x.

(** The lines of a text file: the pieces between line feeds, a final
    unterminated piece counting as a line. *)
Fixpoint file_lines (s : string) : list string :=
  match s with
  | EmptyString => []
  | String c r =>
      if Ascii.eqb c newline then EmptyString :: file_lines r
      else match file_lines r with
           | [] => [String c EmptyString]
           | l :: ls => String c l :: ls
           end
  end.

Definition no_newline (c : ascii) : bool := negb (Ascii.eqb c newline).

(* ===================================================================== *)
(** * Descriptor texts *)
(* ===================================================================== *)

(** Line 668: the longitude as SPLAT! wants it. *)
Definition west_positive (longitude : Q) : Q :=
  if Qltb longitude 0 then Qabs longitude else (360 - longitude)%Q.

(** Lines 665-670: the text of a .qth file. *)
Definition qth_contents (name : string) (latitude longitude elevation : Q) : string :=
  name +:+ nl +:+
  format_f 6 latitude +:+ nl +:+
  format_f 6 (west_positive longitude) +:+ nl +:+
  format_f 2 elevation +:+ nl.

(** Lines 732-741: the two code tables of [_create_lrp]. *)
Definition climate_map : gmap string Z :=
  <["equatorial" := 1]> (<["continental_subtropical" := 2]>
  (<["maritime_subtropical" := 3]> (<["desert" := 4]>
  (<["continental_temperate" := 5]> (<["maritime_temperate_land" := 6]>
  (<["maritime_temperate_sea" := 7]> ∅)))))).

Definition polarization_map : gmap string Z :=
  <["horizontal" := 0]> (<["vertical" := 1]> ∅).

Definition dict_get (d : gmap string Z) (k : string) : result Z :=
  match d !! k with
  | Some v => Ok v
  | None => Raise (Exn KeyError ("'" +:+ k +:+ "'"))
  end.

(** Line 744. *)
Definition erp_watts (lm : libm) (tx_power tx_gain system_loss : Q) : Q :=
  m_pow lm 10 ((tx_power + tx_gain - system_loss - 30) / 10)%Q.

Record lrp_params := LrpParams {
  ground_dielectric : Q;
  ground_conductivity : Q;
  atmosphere_bending : Q;
  frequency_mhz : Q;
  radio_climate : string;
  polarization : string;
  situation_fraction : Q;
  time_fraction : Q;
  tx_power : Q;
  tx_gain : Q;
  system_loss : Q
}.

(** Lines 752-762: the text of the .lrp file. *)
Definition lrp_contents (lm : libm) (p : lrp_params) : result string :=
  let erp := erp_watts lm (tx_power p) (tx_gain p) (system_loss p) in
  rbind (dict_get climate_map (radio_climate p)) (fun climate =>
  rbind (dict_get polarization_map (polarization p)) (fun pol =>
  Ok (format_f 3 (ground_dielectric p) +:+ "  ; Earth Dielectric Constant" +:+ nl +:+
      format_f 6 (ground_conductivity p) +:+ "  ; Earth Conductivity" +:+ nl +:+
      format_f 3 (atmosphere_bending p) +:+ "  ; Atmospheric Bending Constant" +:+ nl +:+
      format_f 3 (frequency_mhz p) +:+ "  ; Frequency in MHz" +:+ nl +:+
      str_int climate +:+ "  ; Radio Climate" +:+ nl +:+
      str_int pol +:+ "  ; Polarization" +:+ nl +:+
      format_f 2 (situation_fraction p / 100)%Q +:+ " ; Fraction of situations" +:+ nl +:+
      format_f 2 (time_fraction p / 100)%Q +:+ "  ; Fraction of time" +:+ nl +:+
      format_f 2 erp +:+ "  ; ERP in Watts" +:+ nl))).

(* ===================================================================== *)
(** * The world: file system, tile cache, log of external calls *)
(* ===================================================================== *)

Record perms := Perms { can_write : bool; can_exec : bool }.

Inductive node :=
  | Dir (p : perms)
  | File (content : string) (p : perms).

Definition rw : perms := Perms true false.

Inductive resampling := Nearest | Bilinear | Cubic | Average.

(** What the code asks of its collaborators, in the order it asks. *)
Inductive event :=
  | EvS3Get (bucket key : string)
  | EvS3Download (bucket key dest : string)
  | EvGunzip (compressed : string)
  | EvRasterOpen (path : string)
  | EvRasterRead (path : string) (method : resampling)
                 (height width out_height out_width : Z)
  | EvRasterWrite (path : string) (height width : Z)
  | EvRun (command : list string) (cwd : string) (input : option string)
  | EvColormap (name : string)
  | EvParseKml (path : string)
  | EvImageOpen (path : string).

Record world := World {
  fs : gmap string node;
  tile_cache : gmap string string;
  events : list event;
  tmp_count : nat
}.

(** Computations that read and change the world and may raise. *)
Definition M (A : Type) : Type := world → result A * world.

Definition ret {A} (a : A) : M A := fun w => (Ok a, w).
Definition raise {A} (e : exn) : M A := fun w => (Raise e, w).
Definition bind {A B} (m : M A) (k : A → M B) : M B :=
  fun w => match m w with
           | (Ok a, w') => k a w'
           | (Raise e, w') => (Raise e, w')
           end.
Definition lift {A} (r : result A) : M A := fun w => (r, w).

(** [try: m  except C as e: handler e] where [C] is the classes [catches]
    accepts; other exceptions pass through. *)
Definition try_except {A} (m : M A) (catches : exn_class → bool)
    (handler : exn → M A) : M A :=
  fun w => match m w with
           | (Ok a, w') => (Ok a, w')
           | (Raise e, w') =>
               if catches (exn_cls e) then handler e w' else (Raise e, w')
           end.

Definition any_Exception (c : exn_class) : bool := true.

Declare Scope M_scope.
Delimit Scope M_scope with M.
Notation "x <- m ;; k" := (bind m (fun x => k))
  (at level 100, m at next level, right associativity) : M_scope.
Notation "m ;;; k" := (bind m (fun _ => k))
  (at level 100, right associativity) : M_scope.
Open Scope M_scope.

Definition log_event (ev : event) : M unit :=
  fun w => (Ok tt, World (fs w) (tile_cache w) (events w ++ [ev]) (tmp_count w)).

Definition set_fs (f : gmap string node) : M unit :=
  fun w => (Ok tt, World f (tile_cache w) (events w) (tmp_count w)).

Definition get_fs : M (gmap string node) := fun w => (Ok (fs w), w).

(** ** Paths *)

Fixpoint last_slash (s : string) (i : nat) (found : option nat) : option nat :=
  match s with
  | EmptyString => found
  | String c r =>
      last_slash r (S i) (if Ascii.eqb c "/" then Some i else found)
  end.

(** [os.path.dirname] and [os.path.basename]. *)
Definition dirname (p : string) : string :=
  match last_slash p 0 None with
  | None => EmptyString
  | Some O => "/"
  | Some i => String.substring 0 i p
  end.

Definition basename (p : string) : string :=
  match last_slash p 0 None with
  | None => p
  | Some i => drop_chars (S i) p
  end.

(** ** File system calls *)

Definition path_exists (p : string) : M bool :=
  fun w => (Ok (bool_decide (is_Some (fs w !! p))), w).



(** [os.access(p, os.W_OK)] and [os.access(p, os.X_OK)]. *)
Definition node_perms (n : node) : perms :=
  match n with Dir p => p | File _ p => p end.

Definition access_W (p : string) : M bool :=
  fun w => (Ok (match fs w !! p with
                | Some n => can_write (node_perms n)
                | None => false
                end), w).


(** [open(p, "w")] followed by one [write] and the close: an existing file
    is truncated if it is writable; a new file needs a writable parent
    directory. *)
Definition write_file (p content : string) : M unit :=
  fun w =>
    match fs w !! p with
    | Some (File _ pm) =>
        if can_write pm
        then set_fs (<[p := File content pm]> (fs w)) w
        else (Raise (Exn PermissionError ("[Errno 13] Permission denied: '" +:+ p +:+ "'")), w)
    | Some (Dir _) =>
        (Raise (Exn OSError ("[Errno 21] Is a directory: '" +:+ p +:+ "'")), w)
    | None =>
        match fs w !! dirname p with
        | Some (Dir pm) =>
            if can_write pm
            then set_fs (<[p := File content rw]> (fs w)) w
            else (Raise (Exn PermissionError ("[Errno 13] Permission denied: '" +:+ p +:+ "'")), w)
        | Some (File _ _) =>
            (Raise (Exn OSError ("[Errno 20] Not a directory: '" +:+ p +:+ "'")), w)
        | None =>
            (Raise (Exn FileNotFoundError
                      ("[Errno 2] No such file or directory: '" +:+ p +:+ "'")), w)
        end
    end.

(** [open(p, "rb").read()]. *)
Definition read_file (p : string) : M string :=
  fun w =>
    match fs w !! p with
    | Some (File content _) => (Ok content, w)
    | Some (Dir _) =>
        (Raise (Exn OSError ("[Errno 21] Is a directory: '" +:+ p +:+ "'")), w)
    | None =>
        (Raise (Exn FileNotFoundError
                  ("[Errno 2] No such file or directory: '" +:+ p +:+ "'")), w)
    end.

(** [os.remove(p)]. *)
Definition remove_file (p : string) : M unit :=
  fun w =>
    match fs w !! p with
    | Some (File _ _) => set_fs (delete p (fs w)) w
    | Some (Dir _) =>
        (Raise (Exn OSError ("[Errno 21] Is a directory: '" +:+ p +:+ "'")), w)
    | None =>
        (Raise (Exn FileNotFoundError
                  ("[Errno 2] No such file or directory: '" +:+ p +:+ "'")), w)
    end.

(** [os.makedirs(p, exist_ok=True)]; the creation of missing ancestors is
    not traced. *)
Definition makedirs (p : string) : M unit :=
  fun w =>
    match fs w !! p with
    | Some (Dir _) => (Ok tt, w)
    | Some (File _ _) =>
        (Raise (Exn OSError ("[Errno 17] File exists: '" +:+ p +:+ "'")), w)
    | None => set_fs (<[p := Dir rw]> (fs w)) w
    end.

(** The content of a file of the world, if there is one at [p]. *)
Definition file_at (w : world) (p : string) : option string :=
  match fs w !! p with
  | Some (File content _) => Some content
  | _ => None
  end.

(** [with tempfile.TemporaryDirectory() as tmpdir: body]: a fresh writable
    directory, removed with everything below it on every way out. *)
Definition tmp_name (n : nat) : string := "/tmp/tmp" +:+ str_int (Z.of_nat n).

Definition under (d p : string) : bool :=
  String.eqb d p || string_prefix (d +:+ "/") p.

Definition rmtree (d : string) (f : gmap string node) : gmap string node :=
  filter (fun kv => under d kv.1 = false) f.

Definition with_tmpdir {A} (body : string → M A) : M A :=
  fun w =>
    let d := tmp_name (tmp_count w) in
    let w1 := World (<[d := Dir rw]> (fs w)) (tile_cache w) (events w)
                    (S (tmp_count w)) in
    match body d w1 with
    | (r, w2) =>
        (r, World (rmtree d (fs w2)) (tile_cache w2) (events w2) (tmp_count w2))
    end.

(** ** The tile cache, as the mapping the code uses it as. *)

Definition cache_contains (k : string) : M bool :=
  fun w => (Ok (bool_decide (is_Some (tile_cache w !! k))), w).

Definition cache_get (k : string) : M string :=
  fun w => match tile_cache w !! k with
           | Some v => (Ok v, w)
           | None => (Raise (Exn KeyError ("'" +:+ k +:+ "'")), w)
           end.

Definition cache_set (k v : string) : M unit :=
  fun w => (Ok tt, World (fs w) (<[k := v]> (tile_cache w)) (events w) (tmp_count w)).

(* ===================================================================== *)
(** * External collaborators *)
(* ===================================================================== *)

(** [affine.Affine]: the matrix [[a b c] [d e f] [0 0 1]]. *)
Record affine := Affine { af_a : Q; af_b : Q; af_c : Q; af_d : Q; af_e : Q; af_f : Q }.

Definition affine_mul (m n : affine) : affine :=
  {| af_a := af_a m * af_a n + af_b m * af_d n;
     af_b := af_a m * af_b n + af_b m * af_e n;
     af_c := af_a m * af_c n + af_b m * af_f n + af_c m;
     af_d := af_d m * af_a n + af_e m * af_d n;
     af_e := af_d m * af_b n + af_e m * af_e n;
     af_f := af_d m * af_c n + af_e m * af_f n + af_f m |}%Q.

Definition affine_translation (x y : Q) : affine := Affine 1 0 x 0 1 y.
Definition affine_scale (sx sy : Q) : affine := Affine sx 0 0 0 sy 0.

(** The image of the pixel coordinate [(col, row)]. *)
Definition affine_apply (m : affine) (col row : Q) : Q * Q :=
  (af_a m * col + af_b m * row + af_c m, af_d m * col + af_e m * row + af_f m)%Q.

(** Bands of rows of samples. *)
Definition pixels := list (list (list Z)).

(** An open raster dataset and the metadata a new one is written with. *)
Record raster := Raster {
  r_driver : string; r_count : Z; r_height : Z; r_width : Z;
  r_transform : affine; r_pixels : pixels
}.

Record raster_meta := Meta {
  m_driver : string; m_count : Z; m_height : Z; m_width : Z;
  m_transform : affine
}.

Record geotiff := GeoTiff {
  g_height : Z; g_width : Z; g_transform : affine; g_crs : string;
  g_band : list (list Z); g_colormap : list (Z * (Z * Z * Z));
  g_description : string
}.

Record proc_result := Proc {
  returncode : Z; stdout : string; stderr : string;
  outputs : list (string * string)
}.

Definition rgb_fun : Type := Q → Q * Q * Q.

(** The collaborators the module calls.  A [Raise] is the exception the
    collaborator raises. *)
Record env := Env {
  lib_m : libm;
  float_repr : Q → string;
  s3_get_object : string → string → result string;
  gzip_decompress : string → result string;
  raster_decode : string → result raster;
  raster_resample : resampling → pixels → Z → Z → Z → pixels;
  raster_encode : raster_meta → pixels → result string;
  run_process : list string → string → gmap string node → result proc_result;
  get_cmap : string → result rgb_fun;
  kml_bounds : string → result (Q * Q * Q * Q);
  image_decode : string → result (list (list Z));
  geotiff_encode : geotiff → result string
}.

(* ===================================================================== *)
(** * Descriptor generators *)
(* ===================================================================== *)

(** Lines 641-678. *)
Definition _create_qth (path name : string) (latitude longitude elevation : Q)
  : M string :=
  ex <- path_exists path ;;
  if negb ex
  then raise (Exn FileNotFoundError ("Directory does not exist: " +:+ path))
  else
  wr <- access_W path ;;
  if negb wr
  then raise (Exn PermissionError ("Directory is not writable: " +:+ path))
  else
  let qth_path := path_join path (name +:+ ".qth") in
  try_except
    (let contents := qth_contents name latitude longitude elevation in
     write_file qth_path contents ;;;
     ret qth_path)
    is_OSError
    (fun e => raise e).

(** Lines 680-772. *)
Definition _create_lrp (lm : libm) (path : string) (p : lrp_params) : M string :=
  ex <- path_exists path ;;
  if negb ex
  then raise (Exn FileNotFoundError ("Directory does not exist: " +:+ path))
  else
  wr <- access_W path ;;
  if negb wr
  then raise (Exn PermissionError ("Directory is not writable: " +:+ path))
  else
  let lrp_path := path_join path "splat.lrp" in
  contents <- lift (lrp_contents lm p) ;;
  try_except
    (write_file lrp_path contents ;;;
     ret lrp_path)
    is_OSError
    (fun e => raise e).

(** [numpy.linspace(start, stop, num)] for [num >= 2]. *)
Definition linspace (start stop : Q) (num : nat) : list Q :=
  (fun i : nat => start + inject_Z (Z.of_nat i) * ((stop - start) / inject_Z (Z.of_nat (num - 1))))%Q
    <$> seq 0 num.

(** [matplotlib.colors.Normalize(vmin, vmax)] applied to the values. *)
Definition normalize (vmin vmax : Q) (values : list Q) : result (list Q) :=
  if Qeq_bool vmin vmax then Ok ((fun _ => 0%Q) <$> values)
  else if Qltb vmax vmin
       then Raise (Exn ValueError "minvalue must be less than or equal to maxvalue")
       else Ok ((fun v => (v - vmin) / (vmax - vmin))%Q <$> values).

(** [(cmap(xs)[:, :3] * 255).astype(int)]. *)
Definition rgb_bytes (cmap : rgb_fun) (xs : list Q) : list (Z * Z * Z) :=
  (fun x => match cmap x with
            | (r, g, b) => (int_of_float (r * 255), int_of_float (g * 255),
                            int_of_float (b * 255))
            end) <$> xs.

Definition dcf_header : string :=
  "; SPLAT! Auto-generated DBM Signal Level Color Definition" +:+ nl +:+
  ";" +:+ nl +:+
  "; Format: dBm: red, green, blue" +:+ nl +:+ ";" +:+ nl.

Definition dcf_row (value : Q) (rgb : Z * Z * Z) : string :=
  match rgb with
  | (r, g, b) =>
      format_d true 4 (int_of_float value) +:+ ": " +:+ format_d false 3 r +:+ ", " +:+
      format_d false 3 g +:+ ", " +:+ format_d false 3 b +:+ nl
  end.

Fixpoint concat_strings (l : list string) : string :=
  match l with
  | [] => EmptyString
  | s :: r => s +:+ concat_strings r
  end.

(** Lines 774-823.  The function has no [return]: it yields [None]. *)
Definition _create_dcf (E : env) (path colormap_name : string) (min_dbm max_dbm : Q)
  : M unit :=
  let dcf_path := path_join path "splat.dcf" in
  log_event (EvColormap colormap_name) ;;;
  cmap <- lift (get_cmap E colormap_name) ;;
  let cmap_values := linspace max_dbm min_dbm 32 in
  normed <- lift (normalize min_dbm max_dbm cmap_values) ;;
  let rgb_colors := rgb_bytes cmap normed in
  try_except
    (write_file dcf_path
       (dcf_header +:+
        concat_strings ((fun vr => dcf_row vr.1 vr.2) <$> zip cmap_values rgb_colors)))
    is_OSError
    (fun e => raise e).

(* ===================================================================== *)
(** * A small concrete world to run the code in *)
(* ===================================================================== *)

(** A grey colour scale, clipped to [0, 1]. *)
Definition gray_cmap : rgb_fun :=
  fun x => let y := if Qltb x 0 then 0%Q else if Qltb 1 x then 1%Q else x in (y, y, y).

Definition demo_raster : raster :=
  Raster "SRTMHGT" 1 7 7 (Affine (1 # 3600) 0 (-120) 0 (-1 # 3600) 36)
         [[[1;1;1;2;2;2;9]; [1;1;1;2;2;2;9]; [1;1;1;2;2;2;9];
           [3;3;3;4;4;4;9]; [3;3;3;4;4;4;9]; [3;3;3;4;4;4;9];
           [9;9;9;9;9;9;9]]].

(** Collaborators that always answer: the object store holds every key,
    gzip is the identity, every raster file decodes to [demo_raster],
    resampling keeps the top-left sample of each block, a process exits
    with status 0 and writes nothing. *)
Definition demo_env : env :=
  {| lib_m := demo_libm;
     float_repr := format_f 1;
     s3_get_object := fun bucket key => Ok ("gzip:" +:+ key);
     gzip_decompress := fun s => Ok s;
     raster_decode := fun _ => Ok demo_raster;
     raster_resample := fun _ px _ h w =>
       (fun band => (fun row => take (Z.to_nat w) row) <$> take (Z.to_nat h) band) <$> px;
     raster_encode := fun m _ =>
       Ok ("raster " +:+ str_int (m_height m) +:+ "x" +:+ str_int (m_width m));
     run_process := fun _ _ _ => Ok (Proc 0 "" "" []);
     get_cmap := fun name =>
       if String.eqb name "gray" then Ok gray_cmap
       else Raise (Exn ValueError ("'" +:+ name +:+ "' is not a valid value for cmap"));
     kml_bounds := fun _ => Ok (51.2, 51.0, -114.0, -114.3)%Q;
     image_decode := fun _ => Ok [[0; 128]; [255; 64]];
     geotiff_encode := fun _ => Ok "geotiff" |}.

(** A working directory, a read-only directory that already holds a
    writable colour table, and nothing else. *)
Definition demo_world : world :=
  {| fs := <["/work" := Dir rw]>
           (<["/frozen" := Dir (Perms false false)]>
           (<["/frozen/splat.dcf" := File "old" rw]> ∅));
     tile_cache := ∅;
     events := [];
     tmp_count := 0 |}.

(** [open(p, "w")] succeeds in the file system [f]. *)
Definition can_open_w (f : gmap string node) (p : string) : bool :=
  match f !! p with
  | Some (File _ pm) => can_write pm
  | Some (Dir _) => false
  | None =>
      match f !! dirname p with
      | Some (Dir pm) => can_write pm
      | _ => false
      end
  end.

(** [os.access(p, os.W_OK)] in the file system [f]. *)
Definition writable_in (f : gmap string node) (p : string) : bool :=
  match f !! p with
  | Some n => can_write (node_perms n)
  | None => false
  end.

Definition digit_or_minus (c : ascii) : bool := is_digit c || Ascii.eqb c "-".

(** The characters a rendered number is made of. *)
Definition number_char (c : ascii) : bool :=
  is_digit c || Ascii.eqb c "-" || Ascii.eqb c ".".

(** The nine lines of the .lrp text. *)
Definition lrp_lines (lm : libm) (p : lrp_params) (climate pol : Z) : list string :=
  [ format_f 3 (ground_dielectric p) +:+ "  ; Earth Dielectric Constant";
    format_f 6 (ground_conductivity p) +:+ "  ; Earth Conductivity";
    format_f 3 (atmosphere_bending p) +:+ "  ; Atmospheric Bending Constant";
    format_f 3 (frequency_mhz p) +:+ "  ; Frequency in MHz";
    str_int climate +:+ "  ; Radio Climate";
    str_int pol +:+ "  ; Polarization";
    format_f 2 (situation_fraction p / 100)%Q +:+ " ; Fraction of situations";
    format_f 2 (time_fraction p / 100)%Q +:+ "  ; Fraction of time";
    format_f 2 (m_pow lm 10 ((tx_power p + tx_gain p - system_loss p - 30) / 10))%Q
      +:+ "  ; ERP in Watts" ].

(* ===================================================================== *)
(** * The output compositor *)
(* ===================================================================== *)

(** [rasterio.transform.from_bounds], as the library defines it:
    [Affine.translation(west, north) *
     Affine.scale((east - west) / width, (south - north) / height)]. *)
Definition from_bounds (west south east north : Q) (width height : Z) : result affine :=
  rbind (py_div (east - west) (inject_Z width)) (fun sx =>
  rbind (py_div (south - north) (inject_Z height)) (fun sy =>
  Ok (affine_mul (affine_translation west north) (affine_scale sx sy)))).

(** [img_array.shape] of a two-dimensional array. *)
Definition array_shape (img_array : list (list Z)) : Z * Z :=
  (Z.of_nat (length img_array), Z.of_nat (length (hd [] img_array))).

(** Lines 891-892. *)
Definition geotiff_transform (north south east west : Q) (img_array : list (list Z))
  : result affine :=
  match array_shape img_array with
  | (height, width) => from_bounds west south east north width height
  end.

(** [numpy.clip(a, 0, 255)]. *)
Definition clip_byte (v : Z) : Z := Z.max 0 (Z.min 255 v).

(** Lines 825-926. *)
Definition _create_geotiff (E : env) (ppm_file kml_file output_tiff colormap_name : string)
    (min_dbm max_dbm : Q) : M string :=
  bounds <- try_except
              (log_event (EvParseKml kml_file) ;;;
               text <- read_file kml_file ;;
               lift (kml_bounds E text))
              any_Exception (fun e => raise e) ;;
  match bounds with
  | (north, south, east, west) =>
      img_array <- try_except
                     (log_event (EvImageOpen ppm_file) ;;;
                      data <- read_file ppm_file ;;
                      img <- lift (image_decode E data) ;;
                      ret ((fun row : list Z => clip_byte <$> row) <$> img))
                     any_Exception (fun e => raise e) ;;
      try_except
        (transform <- lift (geotiff_transform north south east west img_array) ;;
         log_event (EvColormap colormap_name) ;;;
         cmap <- lift (get_cmap E colormap_name) ;;
         let cmap_values := linspace min_dbm max_dbm 256 in
         normed <- lift (normalize min_dbm max_dbm cmap_values) ;;
         let rgb_colors := rgb_bytes cmap normed in
         let gdal_colormap := zip (seqZ 0 256) rgb_colors in
         data <- lift (geotiff_encode E
                         {| g_height := (array_shape img_array).1;
                            g_width := (array_shape img_array).2;
                            g_transform := transform;
                            g_crs := "EPSG:4326";
                            g_band := img_array;
                            g_colormap := gdal_colormap;
                            g_description := "SPLAT! coverage prediction" |}) ;;
         write_file output_tiff data ;;;
         ret output_tiff)
        any_Exception
        (fun e => raise (Exn RuntimeError ("Error during GeoTIFF creation: " +:+ exn_msg e)))
  end.

(** The parameters of the example request at the end of the module. *)
Definition example_lrp : lrp_params :=
  LrpParams (15 # 1) (5 # 1000) (301 # 1) (905 # 1) "continental_temperate"
            "vertical" (90 # 1) (90 # 1) (30 # 1) (2 # 1) (2 # 1).

(* ===================================================================== *)
(** * The [Splat] object *)
(* ===================================================================== *)

(** The attributes [__init__] sets (lines 72-115).  The tile cache and the
    object-store client are the [tile_cache] of the world and the
    [s3_get_object] of the collaborators. *)
Record Splat := MkSplat {
  splat_binary : string;
  splat_hd_binary : string;
  srtm2sdf_binary : string;
  srtm2sdf_hd_binary : string;
  bucket_name : string;
  bucket_prefix : string
}.




(** The values an attribute of a [Splat] object can hold. *)
Inductive pyval :=
  | PyStr (s : string)
  | PyCache
  | PyS3Client
  | PyBoundMethod (name : string).

(** The instance dictionary after [__init__]. *)
Definition instance_dict (self : Splat) : gmap string pyval :=
  list_to_map
    [ ("splat_binary", PyStr (splat_binary self));
      ("splat_hd_binary", PyStr (splat_hd_binary self));
      ("srtm2sdf_binary", PyStr (srtm2sdf_binary self));
      ("srtm2sdf_hd_binary", PyStr (srtm2sdf_hd_binary self));
      ("tile_cache", PyCache);
      ("s3", PyS3Client);
      ("bucket_name", PyStr (bucket_name self));
      ("bucket_prefix", PyStr (bucket_prefix self)) ].

(** The functions the class body defines. *)
Definition class_methods : list string :=
  [ "__init__"; "_calculate_required_terrain_tiles"; "_download_terrain_tile";
    "_convert_hgt_to_sdf"; "_download_srtm_tiles"; "coverage_prediction";
    "_create_qth"; "_create_lrp"; "_create_dcf"; "_create_geotiff" ].

(** [self.<name>]: the instance dictionary, then the class. *)
Definition getattr (self : Splat) (name : string) : result pyval :=
  match instance_dict self !! name with
  | Some v => Ok v
  | None =>
      if existsb (String.eqb name) class_methods then Ok (PyBoundMethod name)
      else Raise (Exn AttributeError
                    ("'Splat' object has no attribute '" +:+ name +:+ "'"))
  end.

(* ===================================================================== *)
(** * Fetching a raw tile *)
(* ===================================================================== *)

(** Line 224. *)
Definition s3_key_of (self : Splat) (tile_name : string) : string :=
  let tile_dir_prefix := slice 0 3 tile_name in
  bucket_prefix self +:+ "/" +:+ tile_dir_prefix +:+ "/" +:+ tile_name.

(** Lines 201-234. *)
Definition _download_terrain_tile (E : env) (self : Splat) (tile_name : string)
  : M string :=
  hit <- cache_contains tile_name ;;
  if hit then cache_get tile_name
  else
    let s3_key := s3_key_of self tile_name in
    try_except
      (log_event (EvS3Get (bucket_name self) s3_key) ;;;
       tile_data <- lift (s3_get_object E (bucket_name self) s3_key) ;;
       cache_set tile_name tile_data ;;;
       ret tile_data)
      any_Exception
      (fun e => raise e).

(* ===================================================================== *)
(** * Running a process *)
(* ===================================================================== *)

Definition write_outputs (f : gmap string node) (outs : list (string * string))
  : gmap string node :=
  foldl (fun acc pc => <[pc.1 := File pc.2 rw]> acc) f outs.

(** [subprocess.run(command, cwd=cwd, check=check)].  The log keeps the
    content of the file the last argument names, as it is when the process
    starts. *)
Definition subprocess_run (E : env) (command : list string) (cwd : string)
    (check : bool) : M proc_result :=
  fun w =>
    let input := file_at w (path_join cwd (List.last command EmptyString)) in
    let w1 := World (fs w) (tile_cache w) (events w ++ [EvRun command cwd input])
                    (tmp_count w) in
    match run_process E command cwd (fs w) with
    | Raise e => (Raise e, w1)
    | Ok r =>
        let w2 := World (write_outputs (fs w) (outputs r)) (tile_cache w)
                        (events w1) (tmp_count w) in
        if check && negb (returncode r =? 0)
        then (Raise (Exn CalledProcessError
                       ("Command returned non-zero exit status " +:+
                        str_int (returncode r) +:+ ".")), w2)
        else (Ok r, w2)
    end.

(* ===================================================================== *)
(** * Converting a raw tile *)
(* ===================================================================== *)

(** What a caller can hand over as [tile]: the [bytes] the signature asks
    for, or a binary file object such as [io.BytesIO]. *)
Inductive pyobj :=
  | PyBytes (b : string)
  | PyBytesIO (b : string).

(** [gzip.GzipFile(fileobj=obj).read()]: the reader calls [obj.read], which
    a [bytes] value does not have. *)
Definition gzip_read (E : env) (obj : pyobj) : M string :=
  match obj with
  | PyBytes _ => raise (Exn AttributeError "'bytes' object has no attribute 'read'")
  | PyBytesIO b => log_event (EvGunzip b) ;;; lift (gzip_decompress E b)
  end.

(** Line 284: [src.transform * src.transform.scale(3, 3)]. *)
Definition downsampled_transform (t : affine) : affine :=
  affine_mul t (affine_scale 3 3).

(** The body of the inner [try] of lines 280-310: open the grid, read it at
    a third of its height and width with average resampling, write it back
    under the same path. *)
Definition downsample_in_place (E : env) (path : string) : M unit :=
  log_event (EvRasterOpen path) ;;;
  content <- read_file path ;;
  src <- lift (raster_decode E content) ;;
  let transform := downsampled_transform (r_transform src) in
  let out_height := r_height src / 3 in
  let out_width := r_width src / 3 in
  log_event (EvRasterRead path Average (r_height src) (r_width src)
                          out_height out_width) ;;;
  let data := raster_resample E Average (r_pixels src) (r_count src)
                              out_height out_width in
  let meta := Meta (r_driver src) (r_count src) out_height out_width transform in
  encoded <- lift (raster_encode E meta data) ;;
  log_event (EvRasterWrite path out_height out_width) ;;;
  write_file path encoded.

(** Lines 236-349. *)
Definition _convert_hgt_to_sdf (E : env) (self : Splat) (tile : pyobj)
    (tile_name : string) (high_resolution : bool) : M string :=
  sdf_filename <- lift (predict_sdf_filename tile_name high_resolution) ;;
  hit <- cache_contains sdf_filename ;;
  if hit then cache_get sdf_filename
  else
  with_tmpdir (fun tmpdir =>
    try_except
      (let hgt_path := path_join tmpdir (replace ".gz" "" tile_name) in
       write_file hgt_path EmptyString ;;;
       raw <- gzip_read E tile ;;
       write_file hgt_path raw ;;;
       (if negb high_resolution
        then try_except (downsample_in_place E hgt_path) any_Exception
               (fun e => raise (Exn RuntimeError
                                  ("Downsampling error for " +:+ hgt_path +:+ ": " +:+
                                   exn_msg e)))
        else ret tt) ;;;
       let cmd := if high_resolution then srtm2sdf_hd_binary self
                  else srtm2sdf_binary self in
       subprocess_run E [cmd; "-d"; "/dev/null"; basename (replace ".gz" "" tile_name)]
                      tmpdir true ;;;
       let sdf_path := path_join tmpdir sdf_filename in
       ex <- path_exists sdf_path ;;
       if negb ex
       then raise (Exn RuntimeError ("Failed to generate .sdf file: " +:+ sdf_path))
       else
       sdf_data <- read_file sdf_path ;;
       cache_set sdf_filename sdf_data ;;;
       ret sdf_data)
      any_Exception
      (fun e =>
         if is_CalledProcessError (exn_cls e)
         then raise (Exn RuntimeError
                       ("Subprocess error during conversion of " +:+ tile_name +:+ ": " +:+
                        exn_msg e))
         else raise (Exn RuntimeError
                       ("Conversion error for " +:+ tile_name +:+ ": " +:+ exn_msg e)))).

(* ===================================================================== *)
(** * The older tile download loop *)
(* ===================================================================== *)

Fixpoint for_each {A} (l : list A) (body : A → M unit) : M unit :=
  match l with
  | [] => ret tt
  | x :: r => body x ;;; for_each r body
  end.

(** Calling what [self._required_srtm_tiles] yields with
    [(lat, lon, radius)].  The one function of the class with this
    signature is the tile resolver; any other value cannot take the call. *)
Definition call_with_centre (lm : libm) (callee : pyval) (lat lon radius : Q)
  : result (gmap string (gset string)) :=
  match callee with
  | PyBoundMethod name =>
      if String.eqb name "_calculate_required_terrain_tiles"
      then _calculate_required_terrain_tiles lm lat lon radius
      else Raise (Exn TypeError (name +:+ "() got unexpected arguments"))
  | _ => Raise (Exn TypeError "object is not callable")
  end.

(** [d[k]] on the resolver's dictionary. *)
Definition dict_getitem (d : gmap string (gset string)) (k : string)
  : result (gset string) :=
  match d !! k with
  | Some v => Ok v
  | None => Raise (Exn KeyError ("'" +:+ k +:+ "'"))
  end.

(** Lines 397-500: one turn of the loop, for a raw tile name and a
    descriptor name. *)
Definition srtm_tile_step (E : env) (path : string) (high_resolution : bool)
    (pair : string * string) : M unit :=
  let tile_name := pair.1 in
  let sdf_file := pair.2 in
  let sdf_path := path_join path sdf_file in
  ex <- path_exists sdf_path ;;
  if ex then ret tt
  else
  let compressed_path := path_join path tile_name in
  let decompressed_path := replace ".gz" "" compressed_path in
  let bucket := "elevation-tiles-prod" in
  let s3_key := "v2/skadi" +:+ "/" +:+ slice 0 3 tile_name +:+ "/" +:+ tile_name in
  try_except
    (log_event (EvS3Download bucket s3_key compressed_path) ;;;
     body <- lift (s3_get_object E bucket s3_key) ;;
     write_file compressed_path body)
    any_Exception
    (fun e => raise (Exn RuntimeError
                       ("Failed to download " +:+ tile_name +:+ ": " +:+ exn_msg e))) ;;;
  try_except
    (compressed <- read_file compressed_path ;;
     write_file decompressed_path EmptyString ;;;
     log_event (EvGunzip compressed) ;;;
     raw <- lift (gzip_decompress E compressed) ;;
     write_file decompressed_path raw)
    any_Exception
    (fun e => raise (Exn RuntimeError
                       ("Failed to decompress " +:+ compressed_path +:+ ": " +:+ exn_msg e))) ;;;
  try_except
    (let cmd := if high_resolution then "srtm2sdf-hd" else "srtm2sdf" in
     subprocess_run E [cmd; "-d"; "/dev/null"; replace ".gz" "" tile_name] path true ;;;
     if negb high_resolution
     then try_except (downsample_in_place E decompressed_path) any_Exception
            (fun e => raise (Exn RuntimeError
                               ("Failed to downsample " +:+ decompressed_path +:+ ": " +:+
                                exn_msg e)))
     else ret tt)
    is_CalledProcessError
    (fun e => raise (Exn RuntimeError
                       ("Failed to convert " +:+ decompressed_path +:+ " to .sdf: " +:+
                        exn_msg e))) ;;;
  try_except
    (remove_file compressed_path ;;;
     remove_file decompressed_path)
    any_Exception
    (fun _ => ret tt).

(** Lines 359-500.  The two sets are walked in the order [elements] lists
    them. *)
Definition _download_srtm_tiles (E : env) (self : Splat) (lat lon radius : Q)
    (path : string) (high_resolution : bool) : M unit :=
  makedirs path ;;;
  resolver <- lift (getattr self "_required_srtm_tiles") ;;
  tile_info <- lift (call_with_centre (lib_m E) resolver lat lon radius) ;;
  required_tiles <- lift (dict_getitem tile_info "tiles") ;;
  sdf_files <- lift (dict_getitem tile_info
                       (if high_resolution then "sdf-hd" else "sdf")) ;;
  let tiles_and_sdfs := zip (elements required_tiles) (elements sdf_files) in
  for_each tiles_and_sdfs (srtm_tile_step E path high_resolution).

(* ===================================================================== *)
(** * A coverage prediction *)
(* ===================================================================== *)

(** The fields of a request that the module reads (the class itself is
    declared elsewhere in the application). *)
Record CoveragePredictionRequest := Request {
  req_lat : Q;
  req_lon : Q;
  req_tx_height : Q;
  req_lrp : lrp_params;
  req_rxh : Q;
  req_radius : Q;
  req_colormap : string;
  req_min_dbm : Q;
  req_max_dbm : Q;
  req_signal_threshold : Q;
  req_high_resolution : bool
}.

(** A path argument must be a [str]. *)
Definition as_path (v : pyval) : result string :=
  match v with
  | PyStr s => Ok s
  | _ => Raise (Exn TypeError "expected str, bytes or os.PathLike object")
  end.

(** [shutil.copy(src, dst)]. *)
Definition shutil_copy (src dst : string) : M unit :=
  data <- read_file src ;;
  write_file dst data.

(** Lines 502-639. *)
Definition coverage_prediction (E : env) (self : Splat)
    (request : CoveragePredictionRequest) : M string :=
  with_tmpdir (fun tmpdir =>
    try_except
      (cache_path <- lift (getattr self "cache_path") ;;
       cache_dir <- lift (as_path cache_path) ;;
       _download_srtm_tiles E self (req_lat request) (req_lon request)
                            (req_radius request) cache_dir
                            (req_high_resolution request) ;;;
       qth_path <- _create_qth tmpdir "tx" (req_lat request) (req_lon request)
                               (req_tx_height request) ;;
       _create_lrp (lib_m E) tmpdir (req_lrp request) ;;;
       _create_dcf E tmpdir (req_colormap request) (req_min_dbm request)
                   (req_max_dbm request) ;;;
       let ppm_path := path_join tmpdir "output.ppm" in
       let kml_path := path_join tmpdir "output.kml" in
       cache_path' <- lift (getattr self "cache_path") ;;
       cache_dir' <- lift (as_path cache_path') ;;
       let command :=
         [ (if req_high_resolution request then splat_hd_binary self
            else splat_binary self);
           "-t"; qth_path; "-L"; float_repr E (req_rxh request); "-metric"; "-R";
           float_repr E (req_radius request / 1000)%Q; "-sc"; "-ngs"; "-N"; "-o";
           ppm_path; "-dbm"; "-db"; float_repr E (req_signal_threshold request);
           "-kml"; "-d"; cache_dir' ] in
       result <- subprocess_run E command tmpdir false ;;
       if negb (returncode result =? 0)
       then raise (Exn RuntimeError
                     ("SPLAT! execution failed with return code " +:+
                      str_int (returncode result) +:+ nl +:+
                      "Stdout: " +:+ stdout result +:+ nl +:+
                      "Stderr: " +:+ stderr result))
       else
       let output_tiff_path := path_join tmpdir "output.tiff" in
       _create_geotiff E ppm_path kml_path output_tiff_path (req_colormap request)
                       (req_min_dbm request) (req_max_dbm request) ;;;
       shutil_copy ppm_path "/Users/patrick/Downloads/output.ppm" ;;;
       read_file output_tiff_path)
      any_Exception
      (fun e => raise (Exn RuntimeError
                         ("Error during coverage prediction: " +:+ exn_msg e)))).

(* ===================================================================== *)
(** * A world with an installation and a working codec *)
(* ===================================================================== *)

(** As [demo_env], but the codec writes the descriptor it is asked for,
    holding the content of its input. *)
Definition codec_env : env :=
  {| lib_m := lib_m demo_env;
     float_repr := float_repr demo_env;
     s3_get_object := s3_get_object demo_env;
     gzip_decompress := gzip_decompress demo_env;
     raster_decode := raster_decode demo_env;
     raster_resample := raster_resample demo_env;
     raster_encode := raster_encode demo_env;
     run_process := fun command cwd f =>
       let arg := List.last command EmptyString in
       let hd := contains "-hd" (hd EmptyString command) in
       match predict_sdf_filename (arg +:+ ".gz") hd with
       | Ok name =>
           Ok (Proc 0 "" ""
                 [(path_join cwd name,
                   "sdf of " +:+
                   match f !! path_join cwd arg with
                   | Some (File c _) => c
                   | _ => EmptyString
                   end)])
       | Raise _ => Ok (Proc 1 "" "bad name" [])
       end;
     get_cmap := get_cmap demo_env;
     kml_bounds := kml_bounds demo_env;
     image_decode := image_decode demo_env;
     geotiff_encode := geotiff_encode demo_env |}.

Definition exe : perms := Perms false true.

Definition installed_world : world :=
  {| fs := <["/opt/splat" := Dir rw]>
           (<["/opt/splat/splat" := File "" exe]>
           (<["/opt/splat/splat-hd" := File "" exe]>
           (<["/opt/splat/srtm2sdf" := File "" exe]>
           (<["/opt/splat/srtm2sdf-hd" := File "" exe]>
           (<["/tmp" := Dir rw]> ∅)))));
     tile_cache := ∅;
     events := [];
     tmp_count := 0 |}.

Definition demo_splat : Splat :=
  MkSplat "/opt/splat/splat" "/opt/splat/splat-hd" "/opt/splat/srtm2sdf"
          "/opt/splat/srtm2sdf-hd" "elevation-tiles-prod" "v2/skadi".

Definition example_request : CoveragePredictionRequest :=
  Request (5108631115040277 # 100000000000000) (-11412940896854595 # 100000000000000)
          (5 # 1) example_lrp (1 # 1) (1000 # 1) "gray" (-130 # 1) (-80 # 1)
          (-130 # 1) true.


(** As [codec_env], but the object store refuses every request. *)
Definition offline_env : env :=
  {| lib_m := lib_m codec_env;
     float_repr := float_repr codec_env;
     s3_get_object := fun _ key =>
       Raise (Exn ClientError ("An error occurred (NoSuchKey): " +:+ key));
     gzip_decompress := gzip_decompress codec_env;
     raster_decode := raster_decode codec_env;
     raster_resample := raster_resample codec_env;
     raster_encode := raster_encode codec_env;
     run_process := run_process codec_env;
     get_cmap := get_cmap codec_env;
     kml_bounds := kml_bounds codec_env;
     image_decode := image_decode codec_env;
     geotiff_encode := geotiff_encode codec_env |}.

(** The message of the [RuntimeError] that [_convert_hgt_to_sdf] raises for
    an exception [e] caught by its handlers (lines 342-349). *)
Definition conversion_error (tile_name : string) (e : exn) : exn :=
  if is_CalledProcessError (exn_cls e)
  then Exn RuntimeError
         ("Subprocess error during conversion of " +:+ tile_name +:+ ": " +:+ exn_msg e)
  else Exn RuntimeError
         ("Conversion error for " +:+ tile_name +:+ ": " +:+ exn_msg e).

(** The world a [with tempfile.TemporaryDirectory()] block starts in, and
    the world it leaves behind when its body ends in [w2]. *)
Definition enter_tmpdir (w : world) : world :=
  World (<[tmp_name (tmp_count w) := Dir rw]> (fs w)) (tile_cache w) (events w)
        (S (tmp_count w)).

Definition leave_tmpdir (d : string) (w2 : world) : world :=
  World (rmtree d (fs w2)) (tile_cache w2) (events w2) (tmp_count w2).

(** Parameters that name a climate the table does not know. *)
Definition tropical_lrp : lrp_params :=
  LrpParams (15 # 1) (5 # 1000) (301 # 1) (905 # 1) "tropical"
            "vertical" (90 # 1) (90 # 1) (30 # 1) (2 # 1) (2 # 1).

(** A row of the colour table without its line feed. *)
Definition dcf_row_body (value : Q) (rgb : Z * Z * Z) : string :=
  match rgb with
  | (r, g, b) =>
      format_d true 4 (int_of_float value) +:+ ": " +:+ format_d false 3 r +:+ ", " +:+
      format_d false 3 g +:+ ", " +:+ format_d false 3 b
  end.

Definition dcf_header_lines : list string :=
  [ "; SPLAT! Auto-generated DBM Signal Level Color Definition"; ";";
    "; Format: dBm: red, green, blue"; ";" ].


(* ===================================================================== *)
(** * Theorems *)
(* ===================================================================== *)

Example hgt_name_example : hgt_name 35 (-120) = "N35W120.hgt.gz".
Proof. reflexivity. Qed.

Example sdf_name_example : sdf_name 35 (-120) = "35:36:-120:-119.sdf".
Proof. reflexivity. Qed.

Example sdf_hd_name_example : sdf_hd_name 35 (-120) = "35:36:-120:-119-hd.sdf".
Proof. reflexivity. Qed.

Example py_int_example : py_int " -0_12 " = Some (-12).
Proof. reflexivity. Qed.

Example replace_example : replace ".gz" "" "N35W120.hgt.gz" = "N35W120.hgt".
Proof. reflexivity. Qed.

(* --------------------------------------------------------------------- *)
(** ** Strings that end at a separator *)
(* --------------------------------------------------------------------- *)


Lemma string_app_nil_l (s : string) : "" +:+ s = s.
Proof. reflexivity. Qed.

Lemma string_app_cons (c : ascii) (a b : string) :
  String c a +:+ b = String c (a +:+ b).
Proof. reflexivity. Qed.

Ltac norm_app := rewrite ?string_app_cons, ?string_app_nil_l in *.

Lemma string_app_assoc (a b c : string) : (a +:+ b) +:+ c = a +:+ (b +:+ c).
Proof. induction a as [|x a IH]; norm_app; congruence. Qed.

Lemma all_chars_app P a b :
  all_chars P (a +:+ b) = all_chars P a && all_chars P b.
Proof.
  induction a as [|x a IH]; norm_app; simpl; [done |].
  by rewrite IH, andb_assoc.
Qed.

Lemma all_chars_weaken (P R : ascii → bool) s :
  (∀ c, P c = true → R c = true) → all_chars P s = true → all_chars R s = true.
Proof.
  intros HPR. induction s as [|x s IH]; simpl; [done |].
  intros [Hx Hs]%andb_true_iff. rewrite (HPR _ Hx). simpl. auto.
Qed.

(** A run of [P]-characters followed by a non-[P] character is read back
    unambiguously. *)
Lemma app_sep_inj (P : ascii → bool) s1 s2 c1 c2 r1 r2 :
  all_chars P s1 = true → all_chars P s2 = true →
  P c1 = false → P c2 = false →
  s1 +:+ String c1 r1 = s2 +:+ String c2 r2 →
  s1 = s2 ∧ c1 = c2 ∧ r1 = r2.
Proof.
  revert s2. induction s1 as [|x s1 IH]; intros [|y s2]; norm_app; simpl.
  - intros _ _ _ _ [= -> ->]. done.
  - intros _ [Hy _]%andb_true_iff Hc1 _ [= -> _]. congruence.
  - intros [Hx _]%andb_true_iff _ _ Hc2 [= -> _]. congruence.
  - intros [_ H1]%andb_true_iff [_ H2]%andb_true_iff Hc1 Hc2 [= -> Heq].
    destruct (IH s2 H1 H2 Hc1 Hc2 Heq) as (-> & -> & ->). done.
Qed.

(* --------------------------------------------------------------------- *)
(** ** Decimal rendering *)
(* --------------------------------------------------------------------- *)

Lemma string_of_uint_digits d : all_chars is_digit (NilEmpty.string_of_uint d) = true.
Proof. induction d; simpl; auto. Qed.

Lemma zeros_digits k : all_chars is_digit (zeros k) = true.
Proof. induction k; simpl; auto. Qed.


Lemma digit_not_colon c : is_digit c = true → not_colon c = true.
Proof.
  unfold is_digit, not_colon. intros [H1 H2]%andb_true_iff.
  apply Nat.leb_le in H1, H2.
  destruct (Ascii.eqb_spec c ":") as [-> |]; [|done].
  vm_compute in H2. lia.
Qed.

Lemma str_int_not_colon z : all_chars not_colon (str_int z) = true.
Proof.
  unfold str_int. destruct (Z.to_int z) as [d|d]; simpl.
  - apply (all_chars_weaken is_digit); [apply digit_not_colon | apply string_of_uint_digits].
  - apply (all_chars_weaken is_digit); [apply digit_not_colon | apply string_of_uint_digits].
Qed.

Lemma str_int_inj z z' : str_int z = str_int z' → z = z'.
Proof.
  unfold str_int. intros H. apply DecimalZ.to_int_inj.
  assert (Some (Z.to_int z) = Some (Z.to_int z')) as [= ->]; [|done].
  by rewrite <- !NilEmpty.isi, H.
Qed.


Lemma digits_value_zeros k s v :
  digits_value s = Some v → digits_value (zeros k +:+ s) = Some v.
Proof.
  unfold digits_value. intros H. induction k as [|k IH]; simpl; norm_app; [done |].
  simpl.
  destruct (NilEmpty.uint_of_string (zeros k +:+ s)) as [d|]; simpl in *; [|done].
  done.
Qed.

Lemma digits_value_str_int n : 0 ≤ n → digits_value (str_int n) = Some n.
Proof.
  intros Hn. unfold digits_value, str_int.
  pose proof (DecimalZ.of_to n) as Hof.
  destruct (Z.to_int n) as [d|d] eqn:Hd; simpl.
  - rewrite NilEmpty.usu. simpl. by rewrite <- Hof.
  - destruct n; simpl in Hd; try discriminate. lia.
Qed.

Lemma format_0d_nonneg w n :
  0 ≤ n → format_0d w n = zeros (w - 0 - String.length (str_int n)) +:+ str_int n.
Proof.
  intros Hn. unfold format_0d.
  rewrite (Z.abs_eq n Hn). destruct (Z.ltb_spec n 0); [lia | done].
Qed.

Lemma format_0d_value w n : 0 ≤ n → digits_value (format_0d w n) = Some n.
Proof.
  intros Hn. rewrite format_0d_nonneg by done.
  by apply digits_value_zeros, digits_value_str_int.
Qed.

Lemma format_0d_inj w n n' :
  0 ≤ n → 0 ≤ n' → format_0d w n = format_0d w n' → n = n'.
Proof.
  intros Hn Hn' H.
  assert (Some n = Some n') as [= ->]; [|done].
  by rewrite <- (format_0d_value w n), <- (format_0d_value w n'), H.
Qed.

Lemma str_int_nonneg_digits n : 0 ≤ n → all_chars is_digit (str_int n) = true.
Proof.
  intros Hn. unfold str_int.
  destruct n; simpl; try apply string_of_uint_digits; [done | lia].
Qed.

Lemma format_0d_digits w n : 0 ≤ n → all_chars is_digit (format_0d w n) = true.
Proof.
  intros Hn. rewrite format_0d_nonneg by done.
  rewrite all_chars_app, zeros_digits, str_int_nonneg_digits; done.
Qed.

(* --------------------------------------------------------------------- *)
(** ** The three cell-to-name maps are injective *)
(* --------------------------------------------------------------------- *)

Lemma hgt_name_inj a b a' b' :
  hgt_name a b = hgt_name a' b' → a = a' ∧ b = b'.
Proof.
  unfold hgt_name. intros H.
  assert (Hd2 : ∀ x, all_chars is_digit (format_0d 2 (Z.abs x)) = true)
    by (intros; apply format_0d_digits; lia).
  assert (Hd3 : ∀ x, all_chars is_digit (format_0d 3 (Z.abs x)) = true)
    by (intros; apply format_0d_digits; lia).
  assert (Hns : (0 <=? a) = (0 <=? a') ∧
                format_0d 2 (Z.abs a) +:+ (if 0 <=? b then "E" else "W")
                  +:+ format_0d 3 (Z.abs b) +:+ ".hgt.gz"
                = format_0d 2 (Z.abs a') +:+ (if 0 <=? b' then "E" else "W")
                  +:+ format_0d 3 (Z.abs b') +:+ ".hgt.gz").
  { destruct (0 <=? a), (0 <=? a'); norm_app; injection H as H; try done;
      discriminate. }
  destruct Hns as [Hsa Hrest].
  assert (Hew : format_0d 2 (Z.abs a) = format_0d 2 (Z.abs a') ∧
                (0 <=? b) = (0 <=? b') ∧
                format_0d 3 (Z.abs b) +:+ ".hgt.gz"
                = format_0d 3 (Z.abs b') +:+ ".hgt.gz").
  { destruct (0 <=? b), (0 <=? b'); norm_app;
      apply (app_sep_inj is_digit) in Hrest as (? & ? & ?); auto; try done. }
  destruct Hew as (Ha & Hsb & Hb).
  norm_app. apply (app_sep_inj is_digit) in Hb as (Hb & _ & _); auto.
  apply format_0d_inj in Ha; [|lia..].
  apply format_0d_inj in Hb; [|lia..].
  split.
  - destruct (Z.leb_spec 0 a), (Z.leb_spec 0 a'); try discriminate; lia.
  - destruct (Z.leb_spec 0 b), (Z.leb_spec 0 b'); try discriminate; lia.
Qed.

Lemma sdf_stem_sep a b sfx a' b' sfx' :
  sdf_stem a b +:+ sfx = sdf_stem a' b' +:+ sfx' → a = a' ∧ b = b'.
Proof.
  unfold sdf_stem. cbv zeta. rewrite !string_app_assoc. norm_app. intros H.
  apply (app_sep_inj not_colon) in H as (Ha & _ & H);
    auto using str_int_not_colon.
  apply (app_sep_inj not_colon) in H as (_ & _ & H);
    auto using str_int_not_colon.
  apply (app_sep_inj not_colon) in H as (Hb & _ & _);
    auto using str_int_not_colon.
  split; by apply str_int_inj.
Qed.

Lemma sdf_name_inj a b a' b' : sdf_name a b = sdf_name a' b' → a = a' ∧ b = b'.
Proof. apply sdf_stem_sep. Qed.

Lemma sdf_hd_name_inj a b a' b' :
  sdf_hd_name a b = sdf_hd_name a' b' → a = a' ∧ b = b'.
Proof. apply sdf_stem_sep. Qed.

(* --------------------------------------------------------------------- *)
(** ** The resolver's loops *)
(* --------------------------------------------------------------------- *)

Lemma extend_lists_nil acc : extend_lists acc [] = acc.
Proof. destruct acc. unfold extend_lists. simpl. by rewrite !app_nil_r. Qed.

Lemma extend_lists_app acc l1 l2 :
  extend_lists acc (l1 ++ l2) = extend_lists (extend_lists acc l1) l2.
Proof. unfold extend_lists. simpl. by rewrite !fmap_app, !app_assoc. Qed.

Lemma loop_body_extend acc lat lon :
  loop_body acc lat lon = extend_lists acc [(lat, lon)].
Proof. reflexivity. Qed.

Lemma inner_loop_extend lat (l : list Z) acc :
  foldl (fun acc' lon_tile => loop_body acc' lat lon_tile) acc l
  = extend_lists acc (l ≫= fun lon_tile => [(lat, lon_tile)]).
Proof.
  revert acc. induction l as [|lon l IH]; intros acc.
  - by rewrite extend_lists_nil.
  - cbn [foldl]. rewrite IH, loop_body_extend, <- extend_lists_app. reflexivity.
Qed.

Lemma outer_loop_extend (l1 l2 : list Z) acc :
  foldl (fun acc lat_tile =>
           foldl (fun acc' lon_tile => loop_body acc' lat_tile lon_tile) acc l2)
        acc l1
  = extend_lists acc (l1 ≫= fun lat_tile => l2 ≫= fun lon_tile => [(lat_tile, lon_tile)]).
Proof.
  revert acc. induction l1 as [|lat l1 IH]; intros acc.
  - by rewrite extend_lists_nil.
  - cbn [foldl]. rewrite IH, inner_loop_extend, <- extend_lists_app. reflexivity.
Qed.

Lemma tile_loop_cells a b c d :
  tile_loop a b c d = extend_lists (TileLists [] [] []) (covered_cells a b c d).
Proof. unfold tile_loop, covered_cells. apply outer_loop_extend. Qed.

Lemma elem_of_covered_cells a b c d i j :
  (i, j) ∈ covered_cells a b c d ↔ a ≤ i ≤ b ∧ c ≤ j ≤ d.
Proof.
  unfold covered_cells, py_range. rewrite list_elem_of_bind. split.
  - intros (lat & (lon & Hin & Hlon)%list_elem_of_bind & Hlat).
    apply list_elem_of_singleton in Hin as [= -> ->].
    apply elem_of_seqZ in Hlat, Hlon. lia.
  - intros [Hi Hj]. exists i. split; [|apply elem_of_seqZ; lia].
    apply list_elem_of_bind. exists j.
    split; [apply list_elem_of_singleton; reflexivity | apply elem_of_seqZ; lia].
Qed.

Lemma NoDup_covered_cells a b c d : NoDup (covered_cells a b c d).
Proof.
  unfold covered_cells, py_range. apply NoDup_bind; [| |apply NoDup_seqZ].
  - intros x1 x2 [i j] _ _ (y1 & H1 & _)%list_elem_of_bind (y2 & H2 & _)%list_elem_of_bind.
    apply list_elem_of_singleton in H1, H2. congruence.
  - intros lat _. apply NoDup_bind; [| |apply NoDup_seqZ].
    + intros x1 x2 [i j] _ _ H1 H2.
      apply list_elem_of_singleton in H1, H2. congruence.
    + intros lon _. apply NoDup_singleton.
Qed.

Lemma length_covered_cells a b c d :
  length (covered_cells a b c d) = (Z.to_nat (b + 1 - a) * Z.to_nat (d + 1 - c))%nat.
Proof.
  unfold covered_cells, py_range.
  rewrite <- (length_seqZ a (b + 1 - a)), <- (length_seqZ c (d + 1 - c)).
  generalize (seqZ c (d + 1 - c)) (seqZ a (b + 1 - a)). intros l2 l1.
  assert (Hrow : ∀ x : Z, length (l2 ≫= fun lon_tile => [(x, lon_tile)]) = length l2).
  { intros x. induction l2 as [|y l2 IH]; [done |].
    change (S (length (l2 ≫= fun lon_tile => [(x, lon_tile)])) = S (length l2)).
    by rewrite IH. }
  induction l1 as [|x l1 IH]; [done |].
  change ((x :: l1) ≫= (fun lat_tile => l2 ≫= fun lon_tile => [(lat_tile, lon_tile)]))
    with ((l2 ≫= fun lon_tile => [(x, lon_tile)]) ++
          (l1 ≫= fun lat_tile => l2 ≫= fun lon_tile => [(lat_tile, lon_tile)])).
  rewrite length_app, IH, Hrow. simpl. lia.
Qed.

Section one_entry.
Variable name : Z → Z → string.
Hypothesis name_inj : ∀ a b a' b', name a b = name a' b' → a = a' ∧ b = b'.

Lemma name_pair_inj : Inj (=) (=) (fun c : Z * Z => name c.1 c.2).
Proof.
  intros [a b] [a' b'] H. simpl in H.
  by destruct (name_inj _ _ _ _ H) as [-> ->].
Qed.

Lemma names_one_entry_per_cell cells :
  NoDup cells →
  one_entry_per_cell name cells (list_to_set ((fun c => name c.1 c.2) <$> cells)).
Proof.
  intros Hnd. split; [|split].
  - rewrite size_list_to_set, length_fmap; [done |].
    apply NoDup_fmap_2; [apply name_pair_inj | done].
  - intros c Hc. apply elem_of_list_to_set, list_elem_of_fmap. eauto.
  - intros n (c & -> & Hc)%elem_of_list_to_set%list_elem_of_fmap.
    exists c. split; [done |]. split; [done |].
    intros c' _ Heq. symmetry. by apply name_pair_inj.
Qed.
End one_entry.

(* --------------------------------------------------------------------- *)
(** ** The bounding box and its cells *)
(* --------------------------------------------------------------------- *)

Lemma py_div_ok x y : ¬ (y == 0)%Q → py_div x y = Ok (x / y)%Q.
Proof.
  intros Hy. unfold py_div.
  destruct (Qeq_bool y 0) eqn:E; [|done].
  by apply Qeq_bool_iff in E.
Qed.

Lemma py_div_zero x y : (y == 0)%Q → raises ZeroDivisionError (py_div x y).
Proof.
  intros Hy. unfold py_div. apply Qeq_bool_iff in Hy. by rewrite Hy.
Qed.

Lemma Qfloor_unit_cell (x : Q) (i : Z) :
  (inject_Z i <= x)%Q → (x < inject_Z (i + 1))%Q → Qfloor x = i.
Proof.
  intros Hlo Hhi.
  pose proof (Qfloor_resp_le _ _ Hlo) as H1. rewrite Qfloor_Z in H1.
  pose proof (Qfloor_le x) as H2.
  assert (H3 : (inject_Z (Qfloor x) < inject_Z (i + 1))%Q)
    by (eapply Qle_lt_trans; eauto).
  rewrite <- Zlt_Qlt in H3. lia.
Qed.

Lemma axis_meets (lo hi : Q) (i : Z) :
  (lo <= hi)%Q →
  (Qfloor lo ≤ i ≤ Qfloor hi) ↔
  ∃ x : Q, (lo <= x)%Q ∧ (x <= hi)%Q ∧ (inject_Z i <= x)%Q ∧ (x < inject_Z (i + 1))%Q.
Proof.
  intros Hbox. split.
  - intros [Hlo Hhi].
    pose proof (Qlt_floor lo) as Hlo1. pose proof (Qfloor_le hi) as Hhi1.
    assert (Hi1 : (inject_Z (Qfloor lo + 1) <= inject_Z (i + 1))%Q)
      by (rewrite <- Zle_Qle; lia).
    assert (Hi2 : (inject_Z i <= inject_Z (Qfloor hi))%Q)
      by (rewrite <- Zle_Qle; lia).
    assert (Hi3 : (inject_Z i < inject_Z (i + 1))%Q)
      by (rewrite <- Zlt_Qlt; lia).
    destruct (Qlt_le_dec lo (inject_Z i)) as [Hc|Hc].
    + exists (inject_Z i). repeat split; try lra.
    + exists lo. repeat split; try lra.
  - intros (x & H1 & H2 & H3 & H4).
    pose proof (Qfloor_unit_cell x i H3 H4) as <-.
    split; by apply Qfloor_resp_le.
Qed.

Lemma box_cells_meet box i j :
  (lat_min box <= lat_max box)%Q → (lon_min box <= lon_max box)%Q →
  (i, j) ∈ box_cells box ↔ cell_meets_box box i j.
Proof.
  intros Hlat Hlon. unfold box_cells, cell_meets_box, math_floor.
  rewrite elem_of_covered_cells, (axis_meets _ _ i Hlat), (axis_meets _ _ j Hlon).
  split.
  - intros [(x & ?) (y & ?)]. exists x, y. tauto.
  - intros (x & y & ?). split; [exists x | exists y]; tauto.
Qed.

Lemma tile_dict_lookups l :
  tile_dict l !! "hgt.gz" = Some (list_to_set (tiles l)) ∧
  tile_dict l !! "sdf" = Some (list_to_set (sdf_filenames l)) ∧
  tile_dict l !! "hd-sdf" = Some (list_to_set (sdf_hd_filenames l)).
Proof.
  unfold tile_dict. split; [|split].
  - by rewrite lookup_insert_eq.
  - rewrite lookup_insert_ne by done. by rewrite lookup_insert_eq.
  - rewrite !lookup_insert_ne by done. by rewrite lookup_insert_eq.
Qed.

Lemma tile_dict_keys l k :
  is_Some (tile_dict l !! k) ↔ k = "hgt.gz" ∨ k = "sdf" ∨ k = "hd-sdf".
Proof.
  unfold tile_dict. rewrite !lookup_insert_is_Some, lookup_empty, is_Some_alt.
  intuition congruence.
Qed.

Lemma demo_libm_cos_nonzero : cos_nonzero demo_libm.
Proof.
  intros x Hx. apply Qabs_Qlt_condition in Hx as [Hlo Hhi].
  unfold demo_libm, m_cos, math_radians.
  assert (E : (1 - 2 * (x * (math_pi / 180)) / math_pi * (2 * (x * (math_pi / 180)) / math_pi)
               == (90 - x) * (90 + x) / 8100)%Q).
  { unfold math_pi. field. }
  rewrite E. intros H0.
  assert (Hp : (0 < (90 - x) * (90 + x))%Q) by nra.
  assert (Hq : ((90 - x) * (90 + x) == ((90 - x) * (90 + x) / 8100) * 8100)%Q)
    by field.
  rewrite H0 in Hq. rewrite Hq in Hp. lra.
Qed.

Lemma bounding_box_of_ok lm lat lon radius :
  ¬ (m_cos lm (math_radians lat) == 0)%Q →
  ∃ box, bounding_box_of lm lat lon radius = Ok box.
Proof.
  intros Hcos. unfold bounding_box_of.
  rewrite !py_div_ok by done. simpl. eauto.
Qed.

Lemma bounding_box_of_pole lm lat lon radius :
  (m_cos lm (math_radians lat) == 0)%Q →
  raises ZeroDivisionError (_calculate_required_terrain_tiles lm lat lon radius).
Proof.
  intros Hcos. unfold _calculate_required_terrain_tiles, bounding_box_of, py_div.
  apply Qeq_bool_iff in Hcos. by rewrite Hcos.
Qed.

(** C2.  For every centre latitude strictly between the poles, every
    longitude and every radius, [_calculate_required_terrain_tiles] returns a
    dictionary with the three keys "hgt.gz", "sdf" and "hd-sdf"; each of the
    three sets holds exactly one entry per one-degree cell of the floored
    bounding box (the cells [(i, j)] with
    [floor lat_min <= i <= floor lat_max] and
    [floor lon_min <= j <= floor lon_max], which are the cells meeting the
    box whenever the box is not inverted), so the three sets have the same
    cardinality, the number of cells; and each of the three cell-to-name
    maps is injective over all pairs of integers. *)
Theorem resolver_one_entry_per_cell (lm : libm) (lat lon radius : Q) :
  cos_nonzero lm →
  (Qabs lat < 90)%Q →
  ∃ box d hgt sdf hd,
    bounding_box_of lm lat lon radius = Ok box ∧
    _calculate_required_terrain_tiles lm lat lon radius = Ok d ∧
    (∀ k, is_Some (d !! k) ↔ k = "hgt.gz" ∨ k = "sdf" ∨ k = "hd-sdf") ∧
    d !! "hgt.gz" = Some hgt ∧ d !! "sdf" = Some sdf ∧ d !! "hd-sdf" = Some hd ∧
    NoDup (box_cells box) ∧
    (∀ i j, (i, j) ∈ box_cells box ↔
            math_floor (lat_min box) ≤ i ≤ math_floor (lat_max box) ∧
            math_floor (lon_min box) ≤ j ≤ math_floor (lon_max box)) ∧
    ((lat_min box <= lat_max box)%Q → (lon_min box <= lon_max box)%Q →
     ∀ i j, (i, j) ∈ box_cells box ↔ cell_meets_box box i j) ∧
    one_entry_per_cell hgt_name (box_cells box) hgt ∧
    one_entry_per_cell sdf_name (box_cells box) sdf ∧
    one_entry_per_cell sdf_hd_name (box_cells box) hd ∧
    size hgt = size sdf ∧ size sdf = size hd ∧
    (∀ a b a' b', hgt_name a b = hgt_name a' b' → a = a' ∧ b = b') ∧
    (∀ a b a' b', sdf_name a b = sdf_name a' b' → a = a' ∧ b = b') ∧
    (∀ a b a' b', sdf_hd_name a b = sdf_hd_name a' b' → a = a' ∧ b = b').
Proof.
  intros Hlm Hlat.
  destruct (bounding_box_of_ok lm lat lon radius (Hlm lat Hlat)) as [box Hbox].
  set (l := tile_loop (math_floor (lat_min box)) (math_floor (lat_max box))
                      (math_floor (lon_min box)) (math_floor (lon_max box))).
  destruct (tile_dict_lookups l) as (Hh & Hs & Hd).
  assert (Hl : l = extend_lists (TileLists [] [] []) (box_cells box))
    by apply tile_loop_cells.
  assert (Hnd : NoDup (box_cells box)) by apply NoDup_covered_cells.
  pose proof (names_one_entry_per_cell hgt_name hgt_name_inj _ Hnd) as H1.
  pose proof (names_one_entry_per_cell sdf_name sdf_name_inj _ Hnd) as H2.
  pose proof (names_one_entry_per_cell sdf_hd_name sdf_hd_name_inj _ Hnd) as H3.
  assert (Ht : tiles l = (fun c => hgt_name c.1 c.2) <$> box_cells box)
    by (rewrite Hl; reflexivity).
  assert (Hsf : sdf_filenames l = (fun c => sdf_name c.1 c.2) <$> box_cells box)
    by (rewrite Hl; reflexivity).
  assert (Hhf : sdf_hd_filenames l = (fun c => sdf_hd_name c.1 c.2) <$> box_cells box)
    by (rewrite Hl; reflexivity).
  rewrite <- Ht in H1. rewrite <- Hsf in H2. rewrite <- Hhf in H3.
  exists box, (tile_dict l), (list_to_set (tiles l)),
    (list_to_set (sdf_filenames l)), (list_to_set (sdf_hd_filenames l)).
  split; [exact Hbox |].
  split. { unfold _calculate_required_terrain_tiles. by rewrite Hbox. }
  split; [apply tile_dict_keys |].
  split; [exact Hh |]. split; [exact Hs |]. split; [exact Hd |].
  split; [exact Hnd |].
  split. { intros i j. apply elem_of_covered_cells. }
  split. { intros. by apply box_cells_meet. }
  split; [exact H1 |]. split; [exact H2 |]. split; [exact H3 |].
  split. { destruct H1 as [-> _], H2 as [-> _]. done. }
  split. { destruct H2 as [-> _], H3 as [-> _]. done. }
  split; [apply hgt_name_inj |]. split; [apply sdf_name_inj | apply sdf_hd_name_inj].
Qed.

Lemma resolver_one_entry_per_cell_witness :
  cos_nonzero demo_libm ∧ (Qabs (51 # 1) < 90)%Q ∧
  ∃ box d hgt sdf hd,
    bounding_box_of demo_libm (51 # 1) (-114 # 1) (1000 # 1) = Ok box ∧
    _calculate_required_terrain_tiles demo_libm (51 # 1) (-114 # 1) (1000 # 1) = Ok d ∧
    (∀ k, is_Some (d !! k) ↔ k = "hgt.gz" ∨ k = "sdf" ∨ k = "hd-sdf") ∧
    d !! "hgt.gz" = Some hgt ∧ d !! "sdf" = Some sdf ∧ d !! "hd-sdf" = Some hd ∧
    NoDup (box_cells box) ∧
    (∀ i j, (i, j) ∈ box_cells box ↔
            math_floor (lat_min box) ≤ i ≤ math_floor (lat_max box) ∧
            math_floor (lon_min box) ≤ j ≤ math_floor (lon_max box)) ∧
    ((lat_min box <= lat_max box)%Q → (lon_min box <= lon_max box)%Q →
     ∀ i j, (i, j) ∈ box_cells box ↔ cell_meets_box box i j) ∧
    one_entry_per_cell hgt_name (box_cells box) hgt ∧
    one_entry_per_cell sdf_name (box_cells box) sdf ∧
    one_entry_per_cell sdf_hd_name (box_cells box) hd ∧
    size hgt = size sdf ∧ size sdf = size hd ∧
    (∀ a b a' b', hgt_name a b = hgt_name a' b' → a = a' ∧ b = b') ∧
    (∀ a b a' b', sdf_name a b = sdf_name a' b' → a = a' ∧ b = b') ∧
    (∀ a b a' b', sdf_hd_name a b = sdf_hd_name a' b' → a = a' ∧ b = b').
Proof.
  split; [exact demo_libm_cos_nonzero |].
  split; [reflexivity |].
  apply (resolver_one_entry_per_cell demo_libm (51 # 1) (-114 # 1) (1000 # 1)).
  - exact demo_libm_cos_nonzero.
  - reflexivity.
Defined.

Example resolver_four_cells :
  box_cells (BBox (509 # 10) (511 # 10) (-1141 # 10) (-1139 # 10))
  = [(50, -115); (50, -114); (51, -115); (51, -114)].
Proof. reflexivity. Qed.

(* --------------------------------------------------------------------- *)
(** ** The converter's predicted name against the resolver's *)
(* --------------------------------------------------------------------- *)

Lemma two_digit_all : forallb two_digit_ok (seqZ 0 100) = true.
Proof. vm_compute. reflexivity. Qed.

Lemma three_digit_all : forallb three_digit_ok (seqZ 0 1000) = true.
Proof. vm_compute. reflexivity. Qed.

Lemma two_digit_shape n :
  0 ≤ n ≤ 99 →
  ∃ a b, format_0d 2 n = String a (String b "") ∧
         is_digit a = true ∧ is_digit b = true ∧
         py_int (String a (String b "")) = Some n.
Proof.
  intros Hn. pose proof two_digit_all as H.
  rewrite forallb_forall in H. specialize (H n).
  unfold two_digit_ok in H.
  destruct (format_0d 2 n) as [|a [|b [|]]];
    try (discriminate H; apply list_elem_of_In, elem_of_seqZ; lia).
  exists a, b. split; [done |].
  assert (Hin : In n (seqZ 0 100)) by (apply list_elem_of_In, elem_of_seqZ; lia).
  specialize (H Hin).
  apply andb_true_iff in H as [[Ha Hb]%andb_true_iff H].
  destruct (py_int (String a (String b ""))) as [m|]; [|done].
  apply Z.eqb_eq in H. by subst.
Qed.

Lemma three_digit_shape n :
  0 ≤ n ≤ 999 →
  ∃ a b c, format_0d 3 n = String a (String b (String c "")) ∧
           is_digit a = true ∧ is_digit b = true ∧ is_digit c = true ∧
           py_int (String a (String b (String c ""))) = Some n.
Proof.
  intros Hn. pose proof three_digit_all as H.
  rewrite forallb_forall in H. specialize (H n).
  unfold three_digit_ok in H.
  destruct (format_0d 3 n) as [|a [|b [|c [|]]]];
    try (discriminate H; apply list_elem_of_In, elem_of_seqZ; lia).
  exists a, b, c. split; [done |].
  assert (Hin : In n (seqZ 0 1000)) by (apply list_elem_of_In, elem_of_seqZ; lia).
  specialize (H Hin).
  apply andb_true_iff in H as [[[Ha Hb]%andb_true_iff Hc]%andb_true_iff H].
  destruct (py_int (String a (String b (String c "")))) as [m|]; [|done].
  apply Z.eqb_eq in H. by subst.
Qed.

Lemma digit_not_W c : is_digit c = true → Ascii.eqb "W" c = false.
Proof.
  unfold is_digit. intros [H1 H2]%andb_true_iff. apply Nat.leb_le in H1, H2.
  destruct (Ascii.eqb_spec "W" c) as [<- |]; [|done].
  vm_compute in H2. lia.
Qed.

(** On every tile name the resolver can emit with a two-digit latitude and a
    three-digit longitude, the converter predicts the descriptor name of the
    cell with the same longitude and the ABSOLUTE VALUE of the latitude. *)
Lemma predict_sdf_filename_abs lat lon hr :
  -99 ≤ lat ≤ 99 → -999 ≤ lon ≤ 999 →
  predict_sdf_filename (hgt_name lat lon) hr
  = Ok (resolver_sdf_name (Z.abs lat) lon hr).
Proof.
  intros Hlat Hlon.
  destruct (two_digit_shape (Z.abs lat)) as (a & b & E2 & Ha & Hb & P2); [lia |].
  destruct (three_digit_shape (Z.abs lon)) as (x & y & z & E3 & Hx & Hy & Hz & P3);
    [lia |].
  unfold hgt_name. rewrite E2, E3.
  assert (Hshape : ∀ ns ew : ascii,
    predict_sdf_filename
      (String ns (String a (String b (String ew
         (String x (String y (String z ".hgt.gz"))))))) hr
    = Ok (resolver_sdf_name (Z.abs lat)
            (Z.abs lon * (if Ascii.eqb "W" ns || Ascii.eqb "W" ew then -1 else 1)) hr)).
  { intros ns ew. unfold predict_sdf_filename, int_or_raise, slice.
    cbn [String.substring Nat.sub]. rewrite P2. cbn [rbind]. rewrite P3. cbn [rbind].
    assert (Hw : contains "W"
                   (String ns (String a (String b (String ew
                      (String x (String y (String z ".hgt.gz")))))))
                 = Ascii.eqb "W" ns || Ascii.eqb "W" ew).
    { cbn [contains string_prefix].
      rewrite (digit_not_W a), (digit_not_W b), (digit_not_W x),
        (digit_not_W y), (digit_not_W z) by done.
      cbn. by rewrite !andb_true_r, !orb_false_r. }
    rewrite Hw. unfold resolver_sdf_name, sdf_hd_name, sdf_name, sdf_stem.
    cbv zeta. by rewrite !string_app_assoc. }
  destruct (Z.leb_spec 0 lat), (Z.leb_spec 0 lon); norm_app; rewrite Hshape;
    cbn [Ascii.eqb Bool.eqb orb]; do 2 f_equal; lia.
Qed.

(** Northern hemisphere: the two components agree. *)
Lemma predict_sdf_filename_north lat lon hr :
  0 ≤ lat ≤ 99 → -999 ≤ lon ≤ 999 →
  predict_sdf_filename (hgt_name lat lon) hr = Ok (resolver_sdf_name lat lon hr).
Proof.
  intros Hlat Hlon. rewrite predict_sdf_filename_abs by lia.
  by rewrite Z.abs_eq by lia.
Qed.

Lemma resolver_sdf_name_inj a b a' b' hr :
  resolver_sdf_name a b hr = resolver_sdf_name a' b' hr → a = a' ∧ b = b'.
Proof. destruct hr; [apply sdf_hd_name_inj | apply sdf_name_inj]. Qed.

(** Southern hemisphere: the converter predicts the name of the mirror cell
    north of the equator, never the name the resolver emitted. *)
Lemma predict_sdf_filename_south lat lon hr :
  -99 ≤ lat < 0 → -999 ≤ lon ≤ 999 →
  predict_sdf_filename (hgt_name lat lon) hr = Ok (resolver_sdf_name (- lat) lon hr) ∧
  resolver_sdf_name (- lat) lon hr ≠ resolver_sdf_name lat lon hr.
Proof.
  intros Hlat Hlon. split.
  - rewrite predict_sdf_filename_abs by lia. by rewrite Z.abs_neq by lia.
  - intros [H _]%resolver_sdf_name_inj. lia.
Qed.

(** C3 (the code departs from the claim).  For the cell with south-west
    corner (-35, -120) the resolver emits the raw tile "S35W120.hgt.gz" with
    the descriptors "-35:-34:-120:-119.sdf" and "-35:-34:-120:-119-hd.sdf",
    but from that raw tile name the converter derives "35:36:-120:-119.sdf"
    and "35:36:-120:-119-hd.sdf": it never reads the hemisphere letter of the
    latitude.  For the northern tile "N35W120.hgt.gz" the two agree. *)
Theorem predict_sdf_filename_southern_tile :
  hgt_name (-35) (-120) = "S35W120.hgt.gz" ∧
  sdf_name (-35) (-120) = "-35:-34:-120:-119.sdf" ∧
  sdf_hd_name (-35) (-120) = "-35:-34:-120:-119-hd.sdf" ∧
  predict_sdf_filename "S35W120.hgt.gz" false = Ok "35:36:-120:-119.sdf" ∧
  predict_sdf_filename "S35W120.hgt.gz" true = Ok "35:36:-120:-119-hd.sdf" ∧
  predict_sdf_filename "N35W120.hgt.gz" false = Ok (sdf_name 35 (-120)) ∧
  predict_sdf_filename "N35W120.hgt.gz" true = Ok (sdf_hd_name 35 (-120)).
Proof. repeat split; vm_compute; reflexivity. Qed.

(* --------------------------------------------------------------------- *)
(** ** Rendered numbers *)
(* --------------------------------------------------------------------- *)

Lemma str_int_chars z : all_chars digit_or_minus (str_int z) = true.
Proof.
  unfold str_int. destruct (Z.to_int z) as [d|d]; simpl.
  - apply (all_chars_weaken is_digit); [|apply string_of_uint_digits].
    intros c Hc. unfold digit_or_minus. by rewrite Hc.
  - apply (all_chars_weaken is_digit); [|apply string_of_uint_digits].
    intros c Hc. unfold digit_or_minus. by rewrite Hc.
Qed.

Lemma digit_char_is_digit d : 0 ≤ d < 10 → is_digit (digit_char d) = true.
Proof.
  intros Hd.
  assert (Hc : d = 0 ∨ d = 1 ∨ d = 2 ∨ d = 3 ∨ d = 4 ∨ d = 5 ∨ d = 6 ∨ d = 7 ∨
               d = 8 ∨ d = 9) by lia.
  repeat destruct Hc as [-> | Hc]; try reflexivity. by subst.
Qed.

Lemma fixed_digits_length k n : String.length (fixed_digits k n) = k.
Proof.
  revert n. induction k as [|k IH]; intros n; [done |].
  cbn [fixed_digits].
  assert (Hlen : ∀ a b, String.length (a +:+ b) = (String.length a + String.length b)%nat).
  { intros a b. induction a as [|x a IHa]; norm_app; simpl; [done | by rewrite IHa]. }
  rewrite Hlen, IH. simpl. lia.
Qed.

Lemma fixed_digits_digits k n : all_chars is_digit (fixed_digits k n) = true.
Proof.
  revert n. induction k as [|k IH]; intros n; [done |].
  cbn [fixed_digits]. rewrite all_chars_app, IH. cbn [all_chars andb].
  rewrite digit_char_is_digit; [done |]. apply Z.mod_pos_bound. lia.
Qed.


Lemma digit_or_minus_number_char c : digit_or_minus c = true → number_char c = true.
Proof.
  unfold number_char, digit_or_minus. intros [-> | ->]%orb_true_iff; [done |].
  by rewrite orb_true_r.
Qed.

Lemma str_int_number z : all_chars number_char (str_int z) = true.
Proof.
  apply (all_chars_weaken digit_or_minus);
    [apply digit_or_minus_number_char | apply str_int_chars].
Qed.


(** [format_f] writes an optional sign, the integer digits, a point and
    exactly [prec] digits. *)
Lemma format_f_shape k x :
  ∃ sign int_digits frac,
    format_f (S k) x = sign +:+ int_digits +:+ "." +:+ frac ∧
    (sign = "" ∨ sign = "-") ∧
    all_chars is_digit int_digits = true ∧
    all_chars is_digit frac = true ∧ String.length frac = S k.
Proof.
  unfold format_f.
  set (scaled := round_half_even (Qabs x * inject_Z (10 ^ Z.of_nat (S k)))).
  exists (if Qltb x 0 then "-" else ""), (str_int (scaled / 10 ^ Z.of_nat (S k))),
    (fixed_digits (S k) (scaled mod 10 ^ Z.of_nat (S k))).
  split; [done |]. split; [destruct (Qltb x 0); auto |].
  split; [|split; [apply fixed_digits_digits | apply fixed_digits_length]].
  apply str_int_nonneg_digits. apply Z.div_pos; [|lia].
  unfold scaled, round_half_even.
  assert (H0 : 0 ≤ Qfloor (Qabs x * inject_Z (10 ^ Z.of_nat (S k)))).
  { rewrite <- (Qfloor_Z 0). apply Qfloor_resp_le.
    apply Qmult_le_0_compat; [apply Qabs_nonneg |].
    change 0%Q with (inject_Z 0). rewrite <- Zle_Qle. lia. }
  repeat match goal with |- context [if ?b then _ else _] => destruct b end; lia.
Qed.

Lemma round_half_even_near q :
  (Qabs (inject_Z (round_half_even q) - q) <= 1 # 2)%Q.
Proof.
  unfold round_half_even.
  pose proof (Qfloor_le q) as Hlo. pose proof (Qlt_floor q) as Hhi.
  set (fl := Qfloor q) in *.
  assert (Hinj : (inject_Z (fl + 1) == inject_Z fl + 1)%Q)
    by (rewrite inject_Z_plus; reflexivity).
  rewrite Hinj in Hhi.
  assert (Hsame : (Qabs (inject_Z fl - q) <= 1 # 2)%Q ∨ (1 <= 2 * (q - inject_Z fl))%Q).
  { destruct (Qlt_le_dec (2 * (q - inject_Z fl)) 1) as [H|H]; [left | by right].
    apply Qabs_Qle_condition. split; lra. }
  assert (Hnext : (Qabs (inject_Z (fl + 1) - q) <= 1 # 2)%Q ∨
                  (2 * (q - inject_Z fl) <= 1)%Q).
  { destruct (Qlt_le_dec 1 (2 * (q - inject_Z fl))) as [H|H]; [left | by right].
    rewrite Hinj. apply Qabs_Qle_condition. split; lra. }
  assert (Htie : (1 <= 2 * (q - inject_Z fl))%Q → (2 * (q - inject_Z fl) <= 1)%Q →
                 (Qabs (inject_Z fl - q) <= 1 # 2)%Q ∧
                 (Qabs (inject_Z (fl + 1) - q) <= 1 # 2)%Q).
  { intros H1 H2. split; [|rewrite Hinj]; apply Qabs_Qle_condition; split; lra. }
  unfold Qltb.
  destruct (Qle_bool 1 (2 * (q - inject_Z fl))) eqn:E1; cbn [negb].
  - apply Qle_bool_iff in E1.
    destruct (Qle_bool (2 * (q - inject_Z fl)) 1) eqn:E2; cbn [negb].
    + apply Qle_bool_iff in E2. destruct (Htie E1 E2) as [Ha Hb].
      by destruct (Z.even fl).
    + destruct Hnext as [H|H]; [done |].
      apply Qle_bool_iff in H. congruence.
  - destruct Hsame as [H|H]; [done |].
    apply Qle_bool_iff in H. congruence.
Qed.

Lemma number_char_no_newline c : number_char c = true → no_newline c = true.
Proof.
  unfold number_char, no_newline, is_digit.
  destruct (Ascii.eqb_spec c newline) as [-> |]; [|done].
  vm_compute. intros [=].
Qed.


Lemma str_int_no_newline z : all_chars no_newline (str_int z) = true.
Proof.
  apply (all_chars_weaken number_char);
    [apply number_char_no_newline | apply str_int_number].
Qed.

(* --------------------------------------------------------------------- *)
(** ** Lines of a text *)
(* --------------------------------------------------------------------- *)

Lemma file_lines_line s rest :
  all_chars no_newline s = true →
  file_lines (s +:+ nl +:+ rest) = s :: file_lines rest.
Proof.
  induction s as [|c s IH]; norm_app; intros H.
  - unfold nl. norm_app. cbn [file_lines]. by rewrite Ascii.eqb_refl.
  - simpl in H. apply andb_true_iff in H as [Hc Hs].
    cbn [file_lines]. rewrite (IH Hs).
    unfold no_newline in Hc. apply negb_true_iff in Hc. by rewrite Hc.
Qed.

(* --------------------------------------------------------------------- *)
(** ** File system calls *)
(* --------------------------------------------------------------------- *)

Lemma write_file_ok p content w :
  can_open_w (fs w) p = true →
  ∃ w', write_file p content w = (Ok tt, w') ∧
        file_at w' p = Some content ∧
        events w' = events w ∧ tile_cache w' = tile_cache w ∧
        tmp_count w' = tmp_count w ∧
        (∀ q, q ≠ p → fs w' !! q = fs w !! q).
Proof.
  unfold can_open_w, write_file, file_at, set_fs. intros H.
  destruct (fs w !! p) as [[pm|c pm]|] eqn:E; [done | |].
  - rewrite H. eexists. split; [done |]. simpl. rewrite lookup_insert_eq.
    repeat split; try done. intros q Hq. by rewrite lookup_insert_ne.
  - destruct (fs w !! dirname p) as [[pm|c pm]|]; [|done..].
    rewrite H. eexists. split; [done |]. simpl. rewrite lookup_insert_eq.
    repeat split; try done. intros q Hq. by rewrite lookup_insert_ne.
Qed.

Lemma write_file_fail p content w :
  can_open_w (fs w) p = false →
  ∃ e, write_file p content w = (Raise e, w) ∧ is_OSError (exn_cls e) = true.
Proof.
  unfold can_open_w, write_file. intros H.
  destruct (fs w !! p) as [[pm|c pm]|] eqn:E.
  - eexists. split; done.
  - rewrite H. eexists. split; done.
  - destruct (fs w !! dirname p) as [[pm|c pm]|]; [rewrite H | |];
      eexists; split; done.
Qed.

(* --------------------------------------------------------------------- *)
(** ** The site descriptor *)
(* --------------------------------------------------------------------- *)


Lemma west_positive_cases longitude :
  ((longitude < 0)%Q ∧ west_positive longitude = Qabs longitude) ∨
  ((0 <= longitude)%Q ∧ west_positive longitude = (360 - longitude)%Q).
Proof.
  unfold west_positive, Qltb.
  destruct (Qle_bool 0 longitude) eqn:E; simpl.
  - right. split; [by apply Qle_bool_iff | done].
  - left. split; [|done]. apply Qnot_le_lt. rewrite <- Qle_bool_iff. congruence.
Qed.




(** The end-to-end example of the specification: the third line is
    114.129409. *)
Example create_qth_example :
  file_lines (qth_contents "tx" (51086311 # 1000000) (-114129409 # 1000000) (5 # 1))
  = ["tx"; "51.086311"; "114.129409"; "5.00"].
Proof. vm_compute. reflexivity. Qed.


(* --------------------------------------------------------------------- *)
(** ** The propagation-parameter descriptor *)
(* --------------------------------------------------------------------- *)



Lemma climate_map_seven : size climate_map = 7%nat.
Proof. vm_compute. reflexivity. Qed.



Lemma lrp_contents_bad_climate lm p :
  climate_map !! radio_climate p = None → raises KeyError (lrp_contents lm p).
Proof. intros H. unfold lrp_contents, dict_get. by rewrite H. Qed.

Lemma lrp_contents_bad_polarization lm p climate :
  climate_map !! radio_climate p = Some climate →
  polarization_map !! polarization p = None → raises KeyError (lrp_contents lm p).
Proof. intros Hc H. unfold lrp_contents, dict_get. by rewrite Hc, H. Qed.



Example create_lrp_example :
  lrp_lines demo_libm
    (LrpParams (15 # 1) (5 # 1000) (301 # 1) (905 # 1) "continental_temperate"
               "vertical" (90 # 1) (90 # 1) (30 # 1) (2 # 1) (2 # 1)) 5 1
  = [ "15.000  ; Earth Dielectric Constant"; "0.005000  ; Earth Conductivity";
      "301.000  ; Atmospheric Bending Constant"; "905.000  ; Frequency in MHz";
      "5  ; Radio Climate"; "1  ; Polarization"; "0.90 ; Fraction of situations";
      "0.90  ; Fraction of time"; "1.00  ; ERP in Watts" ].
Proof. vm_compute. reflexivity. Qed.

(* --------------------------------------------------------------------- *)
(** ** Directory checks of the descriptor generators *)
(* --------------------------------------------------------------------- *)

Lemma create_qth_missing_directory path name latitude longitude elevation w :
  fs w !! path = None →
  _create_qth path name latitude longitude elevation w
  = (Raise (Exn FileNotFoundError ("Directory does not exist: " +:+ path)), w).
Proof.
  intros H. unfold _create_qth, bind, path_exists, raise.
  rewrite bool_decide_eq_false_2; [done |]. rewrite H. by intros [? ?].
Qed.

Lemma create_qth_read_only_directory path name latitude longitude elevation w :
  is_Some (fs w !! path) → writable_in (fs w) path = false →
  _create_qth path name latitude longitude elevation w
  = (Raise (Exn PermissionError ("Directory is not writable: " +:+ path)), w).
Proof.
  intros Hex Hwr. unfold _create_qth, bind, path_exists, access_W, raise.
  rewrite bool_decide_eq_true_2 by done. simpl.
  unfold writable_in in Hwr. by rewrite Hwr.
Qed.

Lemma create_lrp_missing_directory lm path p w :
  fs w !! path = None →
  _create_lrp lm path p w
  = (Raise (Exn FileNotFoundError ("Directory does not exist: " +:+ path)), w).
Proof.
  intros H. unfold _create_lrp, bind, path_exists, raise.
  rewrite bool_decide_eq_false_2; [done |]. rewrite H. by intros [? ?].
Qed.

Lemma create_lrp_read_only_directory lm path p w :
  is_Some (fs w !! path) → writable_in (fs w) path = false →
  _create_lrp lm path p w
  = (Raise (Exn PermissionError ("Directory is not writable: " +:+ path)), w).
Proof.
  intros Hex Hwr. unfold _create_lrp, bind, path_exists, access_W, raise.
  rewrite bool_decide_eq_true_2 by done. simpl.
  unfold writable_in in Hwr. by rewrite Hwr.
Qed.

(** C8 (the code departs from the claim).  [_create_qth] and [_create_lrp]
    test the directory first and raise at once, leaving the world as it was.
    [_create_dcf] has no such test: on the read-only directory "/frozen"
    that already holds a writable "splat.dcf" it computes the colour table,
    overwrites the file and returns; on the missing directory "/nowhere" it
    has already looked up the colour map when [open] fails, and with an
    unknown colour map the error it raises is about the colour map. *)
Theorem create_dcf_without_directory_check :
  writable_in (fs demo_world) "/frozen" = false ∧
  _create_qth "/frozen" "tx" (51086311 # 1000000) (-114129409 # 1000000) (5 # 1)
              demo_world
    = (Raise (Exn PermissionError "Directory is not writable: /frozen"), demo_world) ∧
  _create_lrp demo_libm "/frozen" example_lrp demo_world
    = (Raise (Exn PermissionError "Directory is not writable: /frozen"), demo_world) ∧
  (_create_dcf demo_env "/frozen" "gray" (-130 # 1) (-80 # 1) demo_world).1 = Ok tt ∧
  file_at demo_world "/frozen/splat.dcf" = Some "old" ∧
  option_map (fun s => take 2 (file_lines s))
    (file_at (_create_dcf demo_env "/frozen" "gray" (-130 # 1) (-80 # 1) demo_world).2
             "/frozen/splat.dcf")
    = Some ["; SPLAT! Auto-generated DBM Signal Level Color Definition"; ";"] ∧
  fs demo_world !! "/nowhere" = None ∧
  (_create_dcf demo_env "/nowhere" "gray" (-130 # 1) (-80 # 1) demo_world).1
    = Raise (Exn FileNotFoundError
               "[Errno 2] No such file or directory: '/nowhere/splat.dcf'") ∧
  events (_create_dcf demo_env "/nowhere" "gray" (-130 # 1) (-80 # 1) demo_world).2
    = [EvColormap "gray"] ∧
  (_create_dcf demo_env "/nowhere" "jet" (-130 # 1) (-80 # 1) demo_world).1
    = Raise (Exn ValueError "'jet' is not a valid value for cmap").
Proof.
  split; [reflexivity |].
  split; [apply create_qth_read_only_directory; [vm_compute; eauto | reflexivity] |].
  split; [apply create_lrp_read_only_directory; [vm_compute; eauto | reflexivity] |].
  repeat split; vm_compute; reflexivity.
Qed.

(* --------------------------------------------------------------------- *)
(** ** The geotransform *)
(* --------------------------------------------------------------------- *)




(** The end-to-end example of the specification. *)
Example geotiff_transform_example :
  ∃ t, from_bounds (-1143 # 10) (510 # 10) (-1140 # 10) (512 # 10) 300 200 = Ok t ∧
       (af_c t == -1143 # 10)%Q ∧ (af_f t == 512 # 10)%Q ∧
       (af_a t == (3 # 10) / 300)%Q ∧ (af_e t == (-2 # 10) / 200)%Q.
Proof. eexists. split; [reflexivity |]. repeat split. Qed.

Lemma geotiff_transform_from_shape north south east west img_array :
  geotiff_transform north south east west img_array
  = from_bounds west south east north
      (Z.of_nat (length (hd [] img_array))) (Z.of_nat (length img_array)).
Proof. reflexivity. Qed.

Lemma from_bounds_zero_width north south east west height :
  raises ZeroDivisionError (from_bounds west south east north 0 height).
Proof. reflexivity. Qed.

(* ===================================================================== *)
(** * Further properties of the code *)
(* ===================================================================== *)

(* --------------------------------------------------------------------- *)
(** ** Sequencing *)
(* --------------------------------------------------------------------- *)

Lemma bind_ok_inv {A B} (m : M A) (k : A → M B) w b w' :
  bind m k w = (Ok b, w') →
  ∃ a w1, m w = (Ok a, w1) ∧ k a w1 = (Ok b, w').
Proof.
  unfold bind. destruct (m w) as [[a|e] w1]; [eauto | discriminate].
Qed.

Lemma bind_step {A B} (m : M A) (k : A → M B) w a w1 :
  m w = (Ok a, w1) → bind m k w = k a w1.
Proof. unfold bind. by intros ->. Qed.

Lemma bind_raise {A B} (m : M A) (k : A → M B) w e w1 :
  m w = (Raise e, w1) → bind m k w = (Raise e, w1).
Proof. unfold bind. by intros ->. Qed.

Lemma try_except_ok_inv {A} (m : M A) catches handler w a w' :
  try_except m catches handler w = (Ok a, w') →
  m w = (Ok a, w') ∨
  ∃ e w1, m w = (Raise e, w1) ∧ catches (exn_cls e) = true ∧
          handler e w1 = (Ok a, w').
Proof.
  unfold try_except. destruct (m w) as [[x|e] w1]; [left; congruence |].
  destruct (catches (exn_cls e)) eqn:Hc; [|discriminate].
  intros H. right. eauto.
Qed.

Lemma try_except_ext {A} (m : M A) catches (h1 h2 : exn → M A) w :
  (∀ e w', h1 e w' = h2 e w') →
  try_except m catches h1 w = try_except m catches h2 w.
Proof.
  intros H. unfold try_except. destruct (m w) as [[a|e] w1]; [done |].
  by rewrite H.
Qed.

(** A handler that always raises never turns a failure into a result. *)
Lemma try_except_reraise_ok_inv {A} (m : M A) catches (f : exn → exn) w a w' :
  try_except m catches (fun e => raise (f e)) w = (Ok a, w') →
  m w = (Ok a, w').
Proof.
  intros [H | (e & w1 & _ & _ & H)]%try_except_ok_inv; [done | discriminate].
Qed.

(* --------------------------------------------------------------------- *)
(** ** Construction *)
(* --------------------------------------------------------------------- *)



(* --------------------------------------------------------------------- *)
(** ** Fetching a raw tile *)
(* --------------------------------------------------------------------- *)

Lemma cache_contains_run k w :
  cache_contains k w = (Ok (bool_decide (is_Some (tile_cache w !! k))), w).
Proof. reflexivity. Qed.

Lemma fetch_hit E self tile_name b w :
  tile_cache w !! tile_name = Some b →
  _download_terrain_tile E self tile_name w = (Ok b, w).
Proof.
  intros H. unfold _download_terrain_tile, bind, cache_contains, cache_get.
  rewrite bool_decide_eq_true_2 by (rewrite H; eauto). by rewrite H.
Qed.

Lemma fetch_miss E self tile_name w :
  tile_cache w !! tile_name = None →
  _download_terrain_tile E self tile_name w
  = match s3_get_object E (bucket_name self) (s3_key_of self tile_name) with
    | Ok body =>
        (Ok body,
         World (fs w) (<[tile_name := body]> (tile_cache w))
               (events w ++ [EvS3Get (bucket_name self) (s3_key_of self tile_name)])
               (tmp_count w))
    | Raise e =>
        (Raise e,
         World (fs w) (tile_cache w)
               (events w ++ [EvS3Get (bucket_name self) (s3_key_of self tile_name)])
               (tmp_count w))
    end.
Proof.
  intros H. unfold _download_terrain_tile, bind, cache_contains.
  rewrite bool_decide_eq_false_2 by (rewrite H; by intros [? ?]).
  unfold try_except, bind, log_event, lift, cache_set, ret, raise, any_Exception.
  simpl. by destruct (s3_get_object E (bucket_name self) (s3_key_of self tile_name)).
Qed.

(** A tile that is in the cache is returned from it: no request goes
    to the object store and the world is left exactly as it was. *)
Theorem fetch_cached_tile_makes_no_request E self tile_name b w :
  tile_cache w !! tile_name = Some b →
  _download_terrain_tile E self tile_name w = (Ok b, w).
Proof. apply fetch_hit. Qed.

Lemma fetch_cached_tile_makes_no_request_witness :
  _download_terrain_tile codec_env demo_splat "N35W120.hgt.gz"
    (World (fs installed_world) (<["N35W120.hgt.gz" := "raw"]> ∅) [] 0)
  = (Ok "raw", World (fs installed_world) (<["N35W120.hgt.gz" := "raw"]> ∅) [] 0).
Proof.
  apply (fetch_cached_tile_makes_no_request codec_env demo_splat "N35W120.hgt.gz" "raw").
  reflexivity.
Defined.



(** X3.  When the request to the object store fails, the exception is
    passed on as it is (same class, same message) and the cache holds what
    it held before: a failed download is never cached. *)
Theorem fetch_failure_is_not_cached E self tile_name e w :
  tile_cache w !! tile_name = None →
  s3_get_object E (bucket_name self) (s3_key_of self tile_name) = Raise e →
  ∃ w', _download_terrain_tile E self tile_name w = (Raise e, w') ∧
        tile_cache w' = tile_cache w ∧ fs w' = fs w.
Proof.
  intros Hmiss Hs3. rewrite fetch_miss by done. rewrite Hs3. eauto.
Qed.

Lemma fetch_failure_is_not_cached_witness :
  ∃ w', _download_terrain_tile offline_env demo_splat "N35W120.hgt.gz" installed_world
        = (Raise (Exn ClientError
                    "An error occurred (NoSuchKey): v2/skadi/N35/N35W120.hgt.gz"), w') ∧
        tile_cache w' = tile_cache installed_world ∧ fs w' = fs installed_world.
Proof.
  apply (fetch_failure_is_not_cached offline_env demo_splat "N35W120.hgt.gz"
           (Exn ClientError "An error occurred (NoSuchKey): v2/skadi/N35/N35W120.hgt.gz")
           installed_world).
  - reflexivity.
  - reflexivity.
Defined.



(* --------------------------------------------------------------------- *)
(** ** Primitive steps *)
(* --------------------------------------------------------------------- *)

Lemma write_file_cases p content w :
  (∃ w', write_file p content w = (Ok tt, w') ∧
         file_at w' p = Some content ∧
         events w' = events w ∧ tile_cache w' = tile_cache w ∧
         tmp_count w' = tmp_count w) ∨
  (∃ e, write_file p content w = (Raise e, w)).
Proof.
  destruct (can_open_w (fs w) p) eqn:E.
  - left. destruct (write_file_ok p content w E) as (w' & ? & ? & ? & ? & ? & _). eauto 10.
  - right. destruct (write_file_fail p content w E) as (e & ? & _). eauto.
Qed.

Lemma write_file_ok_inv p content w w' :
  write_file p content w = (Ok tt, w') →
  file_at w' p = Some content ∧ events w' = events w ∧
  tile_cache w' = tile_cache w ∧ tmp_count w' = tmp_count w.
Proof.
  intros H. destruct (write_file_cases p content w) as [(w1 & H1 & ?) | (e & H1)];
    rewrite H1 in H; [|discriminate].
  by injection H as <-.
Qed.

Lemma read_file_ok_inv p w content w' :
  read_file p w = (Ok content, w') → w' = w ∧ file_at w p = Some content.
Proof.
  unfold read_file, file_at.
  destruct (fs w !! p) as [[pm|c pm]|]; intros [= <- <-] || intros [=]; done.
Qed.

Lemma log_event_run ev w :
  log_event ev w = (Ok tt, World (fs w) (tile_cache w) (events w ++ [ev]) (tmp_count w)).
Proof. reflexivity. Qed.

Lemma lift_ok_inv {A} (r : result A) w a w' :
  lift r w = (Ok a, w') → r = Ok a ∧ w' = w.
Proof. unfold lift. by intros [= -> ->]. Qed.

Lemma subprocess_run_ok_inv E command cwd check w r w' :
  subprocess_run E command cwd check w = (Ok r, w') →
  run_process E command cwd (fs w) = Ok r ∧
  (check = true → returncode r = 0) ∧
  fs w' = write_outputs (fs w) (outputs r) ∧
  tile_cache w' = tile_cache w ∧ tmp_count w' = tmp_count w ∧
  events w' = events w ++
    [EvRun command cwd (file_at w (path_join cwd (List.last command EmptyString)))].
Proof.
  unfold subprocess_run.
  destruct (run_process E command cwd (fs w)) as [pr|e]; [|discriminate].
  destruct (check && negb (returncode pr =? 0)) eqn:Hc; [discriminate |].
  intros [= <- <-]. cbn [fs tile_cache tmp_count events].
  repeat split; try done.
  intros ->. cbn [andb] in Hc. apply negb_false_iff, Z.eqb_eq in Hc. done.
Qed.

(** A successful in-place downsampling: the file held a grid of [H] rows
    and [W] columns; it now holds the encoding of that grid read at
    [H // 3] by [W // 3] with average resampling and the transform scaled
    by 3; the log gained the opening, the read and the write. *)
Lemma downsample_in_place_ok_inv E path w w' :
  downsample_in_place E path w = (Ok tt, w') →
  ∃ content src encoded,
    file_at w path = Some content ∧
    raster_decode E content = Ok src ∧
    raster_encode E
      (Meta (r_driver src) (r_count src) (r_height src / 3) (r_width src / 3)
            (downsampled_transform (r_transform src)))
      (raster_resample E Average (r_pixels src) (r_count src)
                       (r_height src / 3) (r_width src / 3)) = Ok encoded ∧
    file_at w' path = Some encoded ∧
    tile_cache w' = tile_cache w ∧ tmp_count w' = tmp_count w ∧
    events w' = events w ++
      [EvRasterOpen path;
       EvRasterRead path Average (r_height src) (r_width src)
                    (r_height src / 3) (r_width src / 3);
       EvRasterWrite path (r_height src / 3) (r_width src / 3)].
Proof.
  unfold downsample_in_place. intros H.
  apply bind_ok_inv in H as ([] & w1 & H1 & H). rewrite log_event_run in H1.
  injection H1 as <-.
  apply bind_ok_inv in H as (content & w2 & H2 & H).
  apply read_file_ok_inv in H2 as [-> Hfile]. unfold file_at in Hfile.
  cbn [fs] in Hfile.
  apply bind_ok_inv in H as (src & w3 & H3 & H).
  apply lift_ok_inv in H3 as [Hdec ->].
  apply bind_ok_inv in H as ([] & w4 & H4 & H). rewrite log_event_run in H4.
  injection H4 as <-.
  apply bind_ok_inv in H as (encoded & w5 & H5 & H).
  apply lift_ok_inv in H5 as [Henc ->].
  apply bind_ok_inv in H as ([] & w6 & H6 & H). rewrite log_event_run in H6.
  injection H6 as <-.
  apply write_file_ok_inv in H as (Hout & Hev & Hc & Ht).
  cbn [events tile_cache tmp_count] in Hev, Hc, Ht.
  exists content, src, encoded.
  split; [exact Hfile |]. split; [done |]. split; [done |]. split; [done |].
  split; [done |]. split; [done |].
  rewrite Hev, <- !app_assoc. reflexivity.
Qed.

(* --------------------------------------------------------------------- *)
(** ** Converting a raw tile *)
(* --------------------------------------------------------------------- *)

Lemma with_tmpdir_run {A} (body : string → M A) w :
  with_tmpdir body w
  = ((body (tmp_name (tmp_count w)) (enter_tmpdir w)).1,
     leave_tmpdir (tmp_name (tmp_count w))
                  (body (tmp_name (tmp_count w)) (enter_tmpdir w)).2).
Proof.
  unfold with_tmpdir, enter_tmpdir, leave_tmpdir.
  by destruct (body _ _) as [r w2].
Qed.


Lemma predict_is_resolver_name tile_name hr key :
  predict_sdf_filename tile_name hr = Ok key →
  ∃ lat lon, key = resolver_sdf_name lat lon hr.
Proof.
  unfold predict_sdf_filename, int_or_raise.
  destruct (py_int (slice 1 3 tile_name)) as [lat|]; cbn [rbind]; [|discriminate].
  destruct (py_int (slice 4 7 tile_name)) as [lon0|]; cbn [rbind]; [|discriminate].
  intros [= <-].
  exists lat, (lon0 * (if contains "W" tile_name then -1 else 1)).
  unfold resolver_sdf_name, sdf_hd_name, sdf_name, sdf_stem. cbv zeta.
  by rewrite !string_app_assoc.
Qed.


Lemma convert_hit E self tile tile_name hr key b w :
  predict_sdf_filename tile_name hr = Ok key →
  tile_cache w !! key = Some b →
  _convert_hgt_to_sdf E self tile tile_name hr w = (Ok b, w).
Proof.
  intros Hk Hc. unfold _convert_hgt_to_sdf.
  rewrite (bind_step _ _ w key w) by (unfold lift; by rewrite Hk).
  rewrite (bind_step _ _ w true w)
    by (rewrite cache_contains_run, bool_decide_eq_true_2; [done | rewrite Hc; eauto]).
  unfold cache_get. by rewrite Hc.
Qed.



(** When the descriptor predicted from the tile name is in the cache,
    [_convert_hgt_to_sdf] returns the cached bytes and does nothing else: no
    temporary directory, no decompression, no resampling, no codec; the
    [tile] argument is not even looked at. *)
Theorem convert_cached_descriptor_does_no_work E self tile tile_name hr key b w :
  predict_sdf_filename tile_name hr = Ok key →
  tile_cache w !! key = Some b →
  _convert_hgt_to_sdf E self tile tile_name hr w = (Ok b, w).
Proof. apply convert_hit. Qed.

Lemma convert_cached_descriptor_does_no_work_witness :
  _convert_hgt_to_sdf codec_env demo_splat (PyBytes "raw") "N35W120.hgt.gz" false
    (World (fs installed_world) (<["35:36:-120:-119.sdf" := "sdf"]> ∅) [] 0)
  = (Ok "sdf", World (fs installed_world) (<["35:36:-120:-119.sdf" := "sdf"]> ∅) [] 0).
Proof.
  apply (convert_cached_descriptor_does_no_work codec_env demo_splat (PyBytes "raw")
           "N35W120.hgt.gz" false "35:36:-120:-119.sdf" "sdf").
  - reflexivity.
  - reflexivity.
Defined.

Lemma convert_miss E self tile tile_name hr key w :
  predict_sdf_filename tile_name hr = Ok key →
  tile_cache w !! key = None →
  _convert_hgt_to_sdf E self tile tile_name hr w
  = with_tmpdir (fun tmpdir =>
      try_except
        (let hgt_path := path_join tmpdir (replace ".gz" "" tile_name) in
         write_file hgt_path EmptyString ;;;
         raw <- gzip_read E tile ;;
         write_file hgt_path raw ;;;
         (if negb hr
          then try_except (downsample_in_place E hgt_path) any_Exception
                 (fun e => raise (Exn RuntimeError
                                    ("Downsampling error for " +:+ hgt_path +:+ ": " +:+
                                     exn_msg e)))
          else ret tt) ;;;
         let cmd := if hr then srtm2sdf_hd_binary self else srtm2sdf_binary self in
         subprocess_run E [cmd; "-d"; "/dev/null"; basename (replace ".gz" "" tile_name)]
                        tmpdir true ;;;
         let sdf_path := path_join tmpdir key in
         ex <- path_exists sdf_path ;;
         if negb ex
         then raise (Exn RuntimeError ("Failed to generate .sdf file: " +:+ sdf_path))
         else
         sdf_data <- read_file sdf_path ;;
         cache_set key sdf_data ;;;
         ret sdf_data)
        any_Exception
        (fun e => raise (conversion_error tile_name e))) w.
Proof.
  intros Hk Hc. unfold _convert_hgt_to_sdf.
  rewrite (bind_step _ _ w key w) by (unfold lift; by rewrite Hk).
  rewrite (bind_step _ _ w false w)
    by (rewrite cache_contains_run, bool_decide_eq_false_2;
        [done | rewrite Hc; by intros [? ?]]).
  cbn iota. unfold with_tmpdir.
  rewrite (try_except_ext _ any_Exception
             (fun e => if is_CalledProcessError (exn_cls e)
                       then raise (Exn RuntimeError
                                     ("Subprocess error during conversion of " +:+
                                      tile_name +:+ ": " +:+ exn_msg e))
                       else raise (Exn RuntimeError
                                     ("Conversion error for " +:+ tile_name +:+ ": " +:+
                                      exn_msg e)))
             (fun e => raise (conversion_error tile_name e))); [reflexivity |].
  intros e w'. unfold conversion_error.
  by destruct (is_CalledProcessError (exn_cls e)).
Qed.

(** X6.  With the [bytes] value its signature asks for, and the descriptor
    not yet in the cache, [_convert_hgt_to_sdf] always raises
    [RuntimeError]: [bytes] has no [read] for the gzip reader to call.  It
    fails before anything is decompressed, resampled or run, and the cache
    is left as it was. *)
Theorem convert_bytes_tile_always_raises E self b tile_name hr key w :
  predict_sdf_filename tile_name hr = Ok key →
  tile_cache w !! key = None →
  ∃ msg w', _convert_hgt_to_sdf E self (PyBytes b) tile_name hr w
            = (Raise (Exn RuntimeError msg), w') ∧
            events w' = events w ∧ tile_cache w' = tile_cache w.
Proof.
  intros Hk Hc. rewrite (convert_miss E self (PyBytes b) tile_name hr key w Hk Hc).
  rewrite with_tmpdir_run. cbv zeta.
  set (d := tmp_name (tmp_count w)).
  set (hgt_path := path_join d (replace ".gz" "" tile_name)).
  assert (Hmsg : ∀ e, ∃ msg, conversion_error tile_name e = Exn RuntimeError msg).
  { intros e. unfold conversion_error.
    destruct (is_CalledProcessError (exn_cls e)); eauto. }
  unfold try_except, any_Exception.
  destruct (write_file_cases hgt_path "" (enter_tmpdir w))
    as [(w2 & Hw & _ & Hev & Hca & _) | (e & Hw)].
  - rewrite (bind_step _ _ _ tt w2 Hw).
    rewrite (bind_raise _ _ w2 (Exn AttributeError "'bytes' object has no attribute 'read'") w2)
      by reflexivity.
    destruct (Hmsg (Exn AttributeError "'bytes' object has no attribute 'read'"))
      as [msg ->].
    exists msg. eexists. split; [reflexivity |]. cbn. by rewrite Hev, Hca.
  - rewrite (bind_raise _ _ _ e _ Hw).
    destruct (Hmsg e) as [msg ->].
    exists msg. eexists. split; [reflexivity |]. done.
Qed.

Lemma convert_bytes_tile_always_raises_witness :
  ∃ msg w', _convert_hgt_to_sdf codec_env demo_splat (PyBytes "raw") "N35W120.hgt.gz"
              false installed_world
            = (Raise (Exn RuntimeError msg), w') ∧
            events w' = events installed_world ∧
            tile_cache w' = tile_cache installed_world.
Proof.
  apply (convert_bytes_tile_always_raises codec_env demo_splat "raw" "N35W120.hgt.gz"
           false "35:36:-120:-119.sdf" installed_world).
  - reflexivity.
  - reflexivity.
Defined.

Lemma gzip_read_ok_inv E tile w raw w' :
  gzip_read E tile w = (Ok raw, w') →
  ∃ gz, tile = PyBytesIO gz ∧ gzip_decompress E gz = Ok raw ∧
        w' = World (fs w) (tile_cache w) (events w ++ [EvGunzip gz]) (tmp_count w).
Proof.
  destruct tile as [b|gz]; [discriminate |]. cbn [gzip_read]. intros H.
  apply bind_ok_inv in H as ([] & w1 & H1 & H). rewrite log_event_run in H1.
  injection H1 as <-. apply lift_ok_inv in H as [? ->]. eauto.
Qed.

(** The steps of a conversion that returns without finding the descriptor
    in the cache. *)
Lemma convert_success_path E self tile tile_name hr key w b w' :
  predict_sdf_filename tile_name hr = Ok key →
  tile_cache w !! key = None →
  _convert_hgt_to_sdf E self tile tile_name hr w = (Ok b, w') →
  ∃ gz raw w_raw w_ds r w_run,
    tile = PyBytesIO gz ∧ gzip_decompress E gz = Ok raw ∧
    file_at w_raw (path_join (tmp_name (tmp_count w)) (replace ".gz" "" tile_name))
      = Some raw ∧
    events w_raw = events w ++ [EvGunzip gz] ∧
    tile_cache w_raw = tile_cache w ∧
    (if hr then w_ds = w_raw
     else downsample_in_place E
            (path_join (tmp_name (tmp_count w)) (replace ".gz" "" tile_name)) w_raw
          = (Ok tt, w_ds)) ∧
    subprocess_run E
      [if hr then srtm2sdf_hd_binary self else srtm2sdf_binary self;
       "-d"; "/dev/null"; basename (replace ".gz" "" tile_name)]
      (tmp_name (tmp_count w)) true w_ds = (Ok r, w_run) ∧
    file_at w_run (path_join (tmp_name (tmp_count w)) key) = Some b ∧
    w' = leave_tmpdir (tmp_name (tmp_count w))
           (World (fs w_run) (<[key := b]> (tile_cache w_run)) (events w_run)
                  (tmp_count w_run)).
Proof.
  intros Hk Hc H. rewrite (convert_miss E self tile tile_name hr key w Hk Hc) in H.
  rewrite with_tmpdir_run in H. cbv zeta in H.
  set (d := tmp_name (tmp_count w)) in *.
  set (hgt := path_join d (replace ".gz" "" tile_name)) in *.
  destruct (try_except _ _ _ (enter_tmpdir w)) as [res w2] eqn:Hb.
  cbn [fst snd] in H. injection H as -> <-.
  apply try_except_reraise_ok_inv in Hb.
  apply bind_ok_inv in Hb as ([] & w3 & Hw0 & Hb).
  apply write_file_ok_inv in Hw0 as (_ & Hev3 & Hc3 & _).
  apply bind_ok_inv in Hb as (raw & w4 & Hgz & Hb).
  apply gzip_read_ok_inv in Hgz as (gz & -> & Hdec & ->).
  apply bind_ok_inv in Hb as ([] & w5 & Hw1 & Hb).
  apply write_file_ok_inv in Hw1 as (Hraw & Hev5 & Hc5 & _).
  cbn [events tile_cache] in Hev5, Hc5.
  apply bind_ok_inv in Hb as ([] & w6 & Hds & Hb).
  apply bind_ok_inv in Hb as (r & w7 & Hrun & Hb).
  apply bind_ok_inv in Hb as (ex & w8 & Hex & Hb).
  unfold path_exists in Hex. injection Hex as <- <-.
  destruct (bool_decide (is_Some (fs w7 !! path_join d key))) eqn:Hsome;
    cbn [negb] in Hb; [|discriminate].
  apply bind_ok_inv in Hb as (sdf_data & w9 & Hrd & Hb).
  apply read_file_ok_inv in Hrd as [-> Hsdf].
  apply bind_ok_inv in Hb as ([] & w10 & Hset & Hb).
  unfold cache_set in Hset. injection Hset as <-.
  unfold ret in Hb. injection Hb as <- <-.
  exists gz, raw, w5, w6, r, w7.
  split; [done |]. split; [done |]. split; [done |].
  split; [by rewrite Hev5, Hev3 |].
  split; [by rewrite Hc5, Hc3 |].
  split.
  { destruct hr; cbn [negb] in Hds.
    - unfold ret in Hds. by injection Hds as <-.
    - by apply try_except_reraise_ok_inv in Hds. }
  split; [done |]. split; done.
Qed.



(** X8.  Standard resolution, descriptor not cached, plain file name: a
    conversion that returns has, in this order, decompressed the tile,
    opened the grid of [H] by [W] samples, read it at [H // 3] by [W // 3]
    with average resampling, written it back with the transform scaled by
    3, and only then run [srtm2sdf], whose input file held the downsampled
    grid at that moment. *)
Theorem convert_standard_downsamples_then_runs_codec
    E self gz tile_name key b w w' :
  basename (replace ".gz" "" tile_name) = replace ".gz" "" tile_name →
  predict_sdf_filename tile_name false = Ok key →
  tile_cache w !! key = None →
  _convert_hgt_to_sdf E self (PyBytesIO gz) tile_name false w = (Ok b, w') →
  ∃ raw src encoded,
    gzip_decompress E gz = Ok raw ∧
    raster_decode E raw = Ok src ∧
    raster_encode E
      (Meta (r_driver src) (r_count src) (r_height src / 3) (r_width src / 3)
            (downsampled_transform (r_transform src)))
      (raster_resample E Average (r_pixels src) (r_count src)
                       (r_height src / 3) (r_width src / 3)) = Ok encoded ∧
    events w' = events w ++
      [ EvGunzip gz;
        EvRasterOpen (path_join (tmp_name (tmp_count w)) (replace ".gz" "" tile_name));
        EvRasterRead (path_join (tmp_name (tmp_count w)) (replace ".gz" "" tile_name))
                     Average (r_height src) (r_width src)
                     (r_height src / 3) (r_width src / 3);
        EvRasterWrite (path_join (tmp_name (tmp_count w)) (replace ".gz" "" tile_name))
                      (r_height src / 3) (r_width src / 3);
        EvRun [srtm2sdf_binary self; "-d"; "/dev/null"; replace ".gz" "" tile_name]
              (tmp_name (tmp_count w)) (Some encoded) ].
Proof.
  intros Hbase Hk Hc Hrun.
  destruct (convert_success_path E self (PyBytesIO gz) tile_name false key w b w' Hk Hc Hrun)
    as (gz' & raw & w_raw & w_ds & r & w_run & [= <-] & Hdec & Hraw & Hev & _ & Hds &
        Hcodec & _ & ->).
  apply downsample_in_place_ok_inv in Hds
    as (content & src & encoded & Hcontent & Hsrc & Henc & Hout & _ & _ & Hev2).
  rewrite Hraw in Hcontent. injection Hcontent as <-.
  apply subprocess_run_ok_inv in Hcodec as (_ & _ & _ & _ & _ & Hev3).
  rewrite Hbase in Hev3. cbn [List.last] in Hev3. rewrite Hout in Hev3.
  exists raw, src, encoded.
  split; [done |]. split; [done |]. split; [done |].
  cbn [leave_tmpdir events]. rewrite Hev3, Hev2, Hev, <- !app_assoc. reflexivity.
Qed.

Lemma convert_standard_downsamples_then_runs_codec_witness :
  ∃ raw src encoded,
    gzip_decompress codec_env "raw" = Ok raw ∧
    raster_decode codec_env raw = Ok src ∧
    raster_encode codec_env
      (Meta (r_driver src) (r_count src) (r_height src / 3) (r_width src / 3)
            (downsampled_transform (r_transform src)))
      (raster_resample codec_env Average (r_pixels src) (r_count src)
                       (r_height src / 3) (r_width src / 3)) = Ok encoded ∧
    events (_convert_hgt_to_sdf codec_env demo_splat (PyBytesIO "raw") "N35W120.hgt.gz"
              false installed_world).2
    = events installed_world ++
      [ EvGunzip "raw";
        EvRasterOpen (path_join (tmp_name (tmp_count installed_world))
                                (replace ".gz" "" "N35W120.hgt.gz"));
        EvRasterRead (path_join (tmp_name (tmp_count installed_world))
                                (replace ".gz" "" "N35W120.hgt.gz"))
                     Average (r_height src) (r_width src)
                     (r_height src / 3) (r_width src / 3);
        EvRasterWrite (path_join (tmp_name (tmp_count installed_world))
                                 (replace ".gz" "" "N35W120.hgt.gz"))
                      (r_height src / 3) (r_width src / 3);
        EvRun [srtm2sdf_binary demo_splat; "-d"; "/dev/null";
               replace ".gz" "" "N35W120.hgt.gz"]
              (tmp_name (tmp_count installed_world)) (Some encoded) ].
Proof.
  apply (convert_standard_downsamples_then_runs_codec codec_env demo_splat "raw"
           "N35W120.hgt.gz" "35:36:-120:-119.sdf" "sdf of raster 2x2" installed_world).
  - reflexivity.
  - reflexivity.
  - reflexivity.
  - vm_compute. reflexivity.
Defined.

(** X9.  High resolution, descriptor not cached, plain file name: a
    conversion that returns has decompressed the tile and run
    [srtm2sdf-hd] on the decompressed grid as it is; the grid is never
    opened, resampled or rewritten. *)
Theorem convert_high_resolution_skips_downsampling
    E self gz tile_name key b w w' :
  basename (replace ".gz" "" tile_name) = replace ".gz" "" tile_name →
  predict_sdf_filename tile_name true = Ok key →
  tile_cache w !! key = None →
  _convert_hgt_to_sdf E self (PyBytesIO gz) tile_name true w = (Ok b, w') →
  ∃ raw,
    gzip_decompress E gz = Ok raw ∧
    events w' = events w ++
      [ EvGunzip gz;
        EvRun [srtm2sdf_hd_binary self; "-d"; "/dev/null"; replace ".gz" "" tile_name]
              (tmp_name (tmp_count w)) (Some raw) ].
Proof.
  intros Hbase Hk Hc Hrun.
  destruct (convert_success_path E self (PyBytesIO gz) tile_name true key w b w' Hk Hc Hrun)
    as (gz' & raw & w_raw & w_ds & r & w_run & [= <-] & Hdec & Hraw & Hev & _ & -> &
        Hcodec & _ & ->).
  apply subprocess_run_ok_inv in Hcodec as (_ & _ & _ & _ & _ & Hev3).
  rewrite Hbase in Hev3. cbn [List.last] in Hev3. rewrite Hraw in Hev3.
  exists raw. split; [done |].
  cbn [leave_tmpdir events]. rewrite Hev3, Hev, <- !app_assoc. reflexivity.
Qed.

Lemma convert_high_resolution_skips_downsampling_witness :
  ∃ raw,
    gzip_decompress codec_env "raw" = Ok raw ∧
    events (_convert_hgt_to_sdf codec_env demo_splat (PyBytesIO "raw") "N35W120.hgt.gz"
              true installed_world).2
    = events installed_world ++
      [ EvGunzip "raw";
        EvRun [srtm2sdf_hd_binary demo_splat; "-d"; "/dev/null";
               replace ".gz" "" "N35W120.hgt.gz"]
              (tmp_name (tmp_count installed_world)) (Some raw) ].
Proof.
  apply (convert_high_resolution_skips_downsampling codec_env demo_splat "raw"
           "N35W120.hgt.gz" "35:36:-120:-119-hd.sdf" "sdf of raw" installed_world).
  - reflexivity.
  - reflexivity.
  - reflexivity.
  - vm_compute. reflexivity.
Defined.

(** X10.  Because the converter reads no hemisphere letter for the
    latitude, the southern tile of row [-lat] is looked up under the
    descriptor name of the northern row [lat]: once that northern
    descriptor is cached, converting the southern raw tile returns the
    northern descriptor's bytes from the cache, whatever tile is handed
    in. *)
Theorem convert_southern_tile_returns_northern_descriptor
    E self tile lat lon hr b w :
  1 ≤ lat ≤ 99 → -999 ≤ lon ≤ 999 →
  tile_cache w !! resolver_sdf_name lat lon hr = Some b →
  _convert_hgt_to_sdf E self tile (hgt_name (- lat) lon) hr w = (Ok b, w).
Proof.
  intros Hlat Hlon Hc.
  apply (convert_hit E self tile (hgt_name (- lat) lon) hr (resolver_sdf_name lat lon hr));
    [|done].
  rewrite predict_sdf_filename_abs by lia. do 2 f_equal. lia.
Qed.

Lemma convert_southern_tile_returns_northern_descriptor_witness :
  _convert_hgt_to_sdf codec_env demo_splat (PyBytes "southern tile")
    (hgt_name (- 35) (-120)) false
    (World (fs installed_world)
           (<[resolver_sdf_name 35 (-120) false := "northern descriptor"]> ∅) [] 0)
  = (Ok "northern descriptor",
     World (fs installed_world)
           (<[resolver_sdf_name 35 (-120) false := "northern descriptor"]> ∅) [] 0).
Proof.
  apply (convert_southern_tile_returns_northern_descriptor codec_env demo_splat
           (PyBytes "southern tile") 35 (-120) false "northern descriptor").
  - lia.
  - lia.
  - reflexivity.
Defined.

(** X11.  The transform written with the downsampled grid keeps the
    georeference: pixel [(col, row)] of the downsampled grid lies where
    pixel [(3 col, 3 row)] of the source lay; the origin is unchanged and
    every coefficient of the linear part is three times the source's. *)
Theorem downsampled_transform_keeps_georeference (t : affine) (col row : Q) :
  ((affine_apply (downsampled_transform t) col row).1
   == (affine_apply t (3 * col) (3 * row)).1)%Q ∧
  ((affine_apply (downsampled_transform t) col row).2
   == (affine_apply t (3 * col) (3 * row)).2)%Q ∧
  (af_a (downsampled_transform t) == 3 * af_a t)%Q ∧
  (af_b (downsampled_transform t) == 3 * af_b t)%Q ∧
  (af_d (downsampled_transform t) == 3 * af_d t)%Q ∧
  (af_e (downsampled_transform t) == 3 * af_e t)%Q ∧
  (af_c (downsampled_transform t) == af_c t)%Q ∧
  (af_f (downsampled_transform t) == af_f t)%Q.
Proof.
  unfold downsampled_transform, affine_apply, affine_mul, affine_scale.
  cbn [af_a af_b af_c af_d af_e af_f fst snd].
  repeat split; ring.
Qed.

(* --------------------------------------------------------------------- *)
(** ** The older download loop and the prediction itself *)
(* --------------------------------------------------------------------- *)

Lemma getattr_cache_path self :
  getattr self "cache_path"
  = Raise (Exn AttributeError "'Splat' object has no attribute 'cache_path'").
Proof. reflexivity. Qed.

Lemma getattr_required_srtm_tiles self :
  getattr self "_required_srtm_tiles"
  = Raise (Exn AttributeError "'Splat' object has no attribute '_required_srtm_tiles'").
Proof. reflexivity. Qed.

Lemma rmtree_root d f : rmtree d f !! d = None.
Proof.
  unfold rmtree. apply map_lookup_filter_None. right. intros x _.
  cbn [fst]. unfold under. by rewrite String.eqb_refl.
Qed.

(** X12.  [_download_srtm_tiles] never returns and never downloads: after
    making sure the output directory exists it looks up
    [self._required_srtm_tiles], a name that neither [__init__] nor the
    class defines, and raises [AttributeError] (or the [OSError] of the
    directory creation, when that fails first).  No request, no
    decompression and no process has been started, and the cache is
    untouched. *)
Theorem srtm_download_never_returns E self lat lon radius path hr w :
  ∃ e w', _download_srtm_tiles E self lat lon radius path hr w = (Raise e, w') ∧
          events w' = events w ∧ tile_cache w' = tile_cache w ∧
          (e = Exn AttributeError "'Splat' object has no attribute '_required_srtm_tiles'" ∨
           is_OSError (exn_cls e) = true).
Proof.
  unfold _download_srtm_tiles, bind, makedirs, set_fs, lift.
  rewrite getattr_required_srtm_tiles.
  destruct (fs w !! path) as [[pm|c pm]|] eqn:Hp.
  - eexists _, _. split; [reflexivity |]. auto.
  - eexists _, _. split; [reflexivity |]. split; [done |]. split; [done |].
    right. reflexivity.
  - eexists _, _. split; [reflexivity |]. auto.
Qed.

(** X13.  The dictionary the resolver returns has no key "tiles" and no key
    "sdf-hd", the names its docstring and [_download_srtm_tiles] use:
    indexing it with either raises [KeyError].  Its keys are "hgt.gz",
    "sdf" and "hd-sdf". *)
Theorem resolver_dict_has_no_tiles_key lm lat lon radius d :
  _calculate_required_terrain_tiles lm lat lon radius = Ok d →
  raises KeyError (dict_getitem d "tiles") ∧
  raises KeyError (dict_getitem d "sdf-hd") ∧
  is_ok (dict_getitem d "hgt.gz") = true ∧
  is_ok (dict_getitem d "sdf") = true ∧
  is_ok (dict_getitem d "hd-sdf") = true.
Proof.
  unfold _calculate_required_terrain_tiles.
  destruct (bounding_box_of lm lat lon radius) as [box|e]; cbn [rbind]; [|discriminate].
  intros [= <-]. unfold dict_getitem.
  set (l := tile_loop _ _ _ _).
  destruct (tile_dict_lookups l) as (-> & -> & ->).
  assert (Hno : ∀ k, k ≠ "hgt.gz" → k ≠ "sdf" → k ≠ "hd-sdf" → tile_dict l !! k = None).
  { intros k H1 H2 H3. apply eq_None_not_Some. rewrite tile_dict_keys. tauto. }
  rewrite !Hno by done. done.
Qed.

Lemma resolver_dict_has_no_tiles_key_witness :
  raises KeyError (dict_getitem (tile_dict (tile_loop 50 51 (-115) (-114))) "tiles") ∧
  raises KeyError (dict_getitem (tile_dict (tile_loop 50 51 (-115) (-114))) "sdf-hd") ∧
  is_ok (dict_getitem (tile_dict (tile_loop 50 51 (-115) (-114))) "hgt.gz") = true ∧
  is_ok (dict_getitem (tile_dict (tile_loop 50 51 (-115) (-114))) "sdf") = true ∧
  is_ok (dict_getitem (tile_dict (tile_loop 50 51 (-115) (-114))) "hd-sdf") = true.
Proof.
  apply (resolver_dict_has_no_tiles_key demo_libm (51 # 1) (-114 # 1) (1000 # 1)
           (tile_dict (tile_loop 50 51 (-115) (-114)))).
  reflexivity.
Defined.

(** X14.  For every object and every request, [coverage_prediction] raises
    [RuntimeError] with the message of the [AttributeError] for
    [self.cache_path], an attribute [__init__] never sets.  It has then
    called no collaborator; the temporary directory it created is gone and
    the cache is as it was. *)
Theorem coverage_prediction_always_raises E self request w :
  ∃ w', coverage_prediction E self request w
        = (Raise (Exn RuntimeError
                    "Error during coverage prediction: 'Splat' object has no attribute 'cache_path'"),
           w') ∧
        events w' = events w ∧ tile_cache w' = tile_cache w ∧
        fs w' !! tmp_name (tmp_count w) = None ∧
        tmp_count w' = S (tmp_count w).
Proof.
  unfold coverage_prediction. rewrite with_tmpdir_run.
  unfold try_except, bind, lift. rewrite getattr_cache_path.
  cbn [any_Exception exn_cls exn_msg raise fst snd].
  eexists. split; [reflexivity |].
  cbn [leave_tmpdir enter_tmpdir events tile_cache fs tmp_count].
  split; [done |]. split; [done |]. split; [apply rmtree_root | done].
Qed.

Lemma remove_file_keeps_log p w r w' :
  remove_file p w = (r, w') → events w' = events w ∧ tile_cache w' = tile_cache w.
Proof.
  unfold remove_file, set_fs.
  destruct (fs w !! p) as [[pm|c pm]|]; intros [= <- <-]; done.
Qed.

Lemma cleanup_keeps_log a b w r w' :
  try_except (remove_file a ;;; remove_file b) any_Exception (fun _ => ret tt) w = (r, w') →
  events w' = events w ∧ tile_cache w' = tile_cache w.
Proof.
  unfold try_except, bind, any_Exception, ret.
  destruct (remove_file a w) as [[[]|e] w1] eqn:Ha;
    apply remove_file_keeps_log in Ha as [Hev1 Hc1].
  - destruct (remove_file b w1) as [[[]|e] w2] eqn:Hb;
      apply remove_file_keeps_log in Hb as [Hev2 Hc2];
      intros [= <- <-]; by rewrite Hev2, Hc2.
  - intros [= <- <-]. done.
Qed.

(** X15.  One turn of the loop of [_download_srtm_tiles] at standard
    resolution, for a descriptor that is not yet in the output directory:
    when the turn completes it has downloaded the raw tile, decompressed
    it, run [srtm2sdf] on the decompressed grid at its native resolution,
    and only after that opened, downsampled by 3 and rewritten the grid.
    The descriptor is thus made from the grid before it is downsampled,
    the reverse of the order in [_convert_hgt_to_sdf]. *)
Theorem srtm_step_runs_codec_before_downsampling
    E path tile_name sdf_file w w' :
  fs w !! path_join path sdf_file = None →
  path_join path (replace ".gz" "" tile_name)
    = replace ".gz" "" (path_join path tile_name) →
  srtm_tile_step E path false (tile_name, sdf_file) w = (Ok tt, w') →
  ∃ body raw src,
    s3_get_object E "elevation-tiles-prod"
      ("v2/skadi" +:+ "/" +:+ slice 0 3 tile_name +:+ "/" +:+ tile_name) = Ok body ∧
    gzip_decompress E body = Ok raw ∧
    events w' = events w ++
      [ EvS3Download "elevation-tiles-prod"
          ("v2/skadi" +:+ "/" +:+ slice 0 3 tile_name +:+ "/" +:+ tile_name)
          (path_join path tile_name);
        EvGunzip body;
        EvRun ["srtm2sdf"; "-d"; "/dev/null"; replace ".gz" "" tile_name] path (Some raw);
        EvRasterOpen (replace ".gz" "" (path_join path tile_name));
        EvRasterRead (replace ".gz" "" (path_join path tile_name)) Average
                     (r_height src) (r_width src) (r_height src / 3) (r_width src / 3);
        EvRasterWrite (replace ".gz" "" (path_join path tile_name))
                      (r_height src / 3) (r_width src / 3) ].
Proof.
  intros Hnew Hpath Hrun. unfold srtm_tile_step in Hrun. cbn [fst snd] in Hrun.
  apply bind_ok_inv in Hrun as (ex & w0 & Hex & Hrun).
  unfold path_exists in Hex. injection Hex as <- <-.
  rewrite bool_decide_eq_false_2 in Hrun by (rewrite Hnew; by intros [? ?]).
  cbv zeta in Hrun.
  apply bind_ok_inv in Hrun as ([] & w1 & Hdl & Hrun).
  apply try_except_reraise_ok_inv in Hdl.
  apply bind_ok_inv in Hdl as ([] & w1a & Hl & Hdl). rewrite log_event_run in Hl.
  injection Hl as <-.
  apply bind_ok_inv in Hdl as (body & w1b & Hs3 & Hdl).
  apply lift_ok_inv in Hs3 as [Hs3 ->].
  apply write_file_ok_inv in Hdl as (Hcomp & Hev1 & _ & _).
  cbn [events] in Hev1.
  apply bind_ok_inv in Hrun as ([] & w2 & Hgz & Hrun).
  apply try_except_reraise_ok_inv in Hgz.
  apply bind_ok_inv in Hgz as (compressed & w2a & Hrd & Hgz).
  apply read_file_ok_inv in Hrd as [-> Hrd]. rewrite Hcomp in Hrd.
  injection Hrd as <-.
  apply bind_ok_inv in Hgz as ([] & w2b & Hw0 & Hgz).
  apply write_file_ok_inv in Hw0 as (_ & Hev2b & _ & _).
  apply bind_ok_inv in Hgz as ([] & w2c & Hl & Hgz). rewrite log_event_run in Hl.
  injection Hl as <-.
  apply bind_ok_inv in Hgz as (raw & w2d & Hdec & Hgz).
  apply lift_ok_inv in Hdec as [Hdec ->].
  apply write_file_ok_inv in Hgz as (Hraw & Hev2 & _ & _).
  cbn [events] in Hev2.
  apply bind_ok_inv in Hrun as ([] & w3 & Hconv & Hrun).
  apply try_except_reraise_ok_inv in Hconv.
  apply bind_ok_inv in Hconv as (r & w3a & Hcodec & Hds).
  apply subprocess_run_ok_inv in Hcodec as (_ & _ & _ & _ & _ & Hev3).
  cbn [List.last] in Hev3. rewrite Hpath, Hraw in Hev3.
  cbn [negb] in Hds. apply try_except_reraise_ok_inv in Hds.
  apply downsample_in_place_ok_inv in Hds
    as (content & src & encoded & _ & _ & _ & _ & _ & _ & Hev4).
  apply cleanup_keeps_log in Hrun as [Hev5 _].
  exists body, raw, src.
  split; [done |]. split; [done |].
  rewrite Hev5, Hev4, Hev3, Hev2, Hev2b, Hev1, <- !app_assoc. reflexivity.
Qed.

Lemma srtm_step_runs_codec_before_downsampling_witness :
  ∃ body raw src,
    s3_get_object codec_env "elevation-tiles-prod"
      ("v2/skadi" +:+ "/" +:+ slice 0 3 "N35W120.hgt.gz" +:+ "/" +:+ "N35W120.hgt.gz")
      = Ok body ∧
    gzip_decompress codec_env body = Ok raw ∧
    events (srtm_tile_step codec_env "/tmp" false
              ("N35W120.hgt.gz", "35:36:-120:-119.sdf") installed_world).2
    = events installed_world ++
      [ EvS3Download "elevation-tiles-prod"
          ("v2/skadi" +:+ "/" +:+ slice 0 3 "N35W120.hgt.gz" +:+ "/" +:+ "N35W120.hgt.gz")
          (path_join "/tmp" "N35W120.hgt.gz");
        EvGunzip body;
        EvRun ["srtm2sdf"; "-d"; "/dev/null"; replace ".gz" "" "N35W120.hgt.gz"] "/tmp"
              (Some raw);
        EvRasterOpen (replace ".gz" "" (path_join "/tmp" "N35W120.hgt.gz"));
        EvRasterRead (replace ".gz" "" (path_join "/tmp" "N35W120.hgt.gz")) Average
                     (r_height src) (r_width src) (r_height src / 3) (r_width src / 3);
        EvRasterWrite (replace ".gz" "" (path_join "/tmp" "N35W120.hgt.gz"))
                      (r_height src / 3) (r_width src / 3) ].
Proof.
  apply (srtm_step_runs_codec_before_downsampling codec_env "/tmp" "N35W120.hgt.gz"
           "35:36:-120:-119.sdf" installed_world).
  - reflexivity.
  - reflexivity.
  - vm_compute. reflexivity.
Defined.

(* --------------------------------------------------------------------- *)
(** ** More on the tile resolver *)
(* --------------------------------------------------------------------- *)

Lemma py_range_single a : py_range a (a + 1) = [a].
Proof.
  unfold py_range. replace (a + 1 - a) with 1 by lia.
  rewrite seqZ_cons by lia. by rewrite seqZ_nil by lia.
Qed.

Lemma covered_cells_single a c : covered_cells a a c c = [(a, c)].
Proof. unfold covered_cells. by rewrite !py_range_single. Qed.

Lemma tile_loop_single a c :
  tile_loop a a c c = TileLists [hgt_name a c] [sdf_name a c] [sdf_hd_name a c].
Proof. by rewrite tile_loop_cells, covered_cells_single. Qed.

Lemma delta_deg_zero : ((0 / inject_Z earth_radius) * (180 / math_pi) == 0)%Q.
Proof. reflexivity. Qed.

(** X16.  A radius of 0 yields exactly one cell, the one that holds the
    centre: each of the three sets is the singleton of the name of the cell
    [(floor lat, floor lon)]. *)
Theorem resolver_zero_radius_single_cell lm (lat lon : Q) :
  ¬ (m_cos lm (math_radians lat) == 0)%Q →
  ∃ d, _calculate_required_terrain_tiles lm lat lon 0 = Ok d ∧
       d !! "hgt.gz" = Some {[ hgt_name (math_floor lat) (math_floor lon) ]} ∧
       d !! "sdf" = Some {[ sdf_name (math_floor lat) (math_floor lon) ]} ∧
       d !! "hd-sdf" = Some {[ sdf_hd_name (math_floor lat) (math_floor lon) ]}.
Proof.
  intros Hcos. unfold _calculate_required_terrain_tiles, bounding_box_of.
  rewrite !py_div_ok by done. cbn [rbind lat_min lat_max lon_min lon_max].
  unfold math_floor.
  assert (Hlat1 : Qfloor (lat - 0 / inject_Z earth_radius * (180 / math_pi)) = Qfloor lat).
  { apply Qfloor_comp. rewrite delta_deg_zero. ring. }
  assert (Hlat2 : Qfloor (lat + 0 / inject_Z earth_radius * (180 / math_pi)) = Qfloor lat).
  { apply Qfloor_comp. rewrite delta_deg_zero. ring. }
  assert (Hd : (0 / inject_Z earth_radius * (180 / math_pi) / m_cos lm (math_radians lat)
                == 0)%Q).
  { rewrite delta_deg_zero. field. done. }
  assert (Hlon1 : Qfloor (lon - 0 / inject_Z earth_radius * (180 / math_pi) /
                                m_cos lm (math_radians lat)) = Qfloor lon).
  { apply Qfloor_comp. rewrite Hd. ring. }
  assert (Hlon2 : Qfloor (lon + 0 / inject_Z earth_radius * (180 / math_pi) /
                                m_cos lm (math_radians lat)) = Qfloor lon).
  { apply Qfloor_comp. rewrite Hd. ring. }
  rewrite Hlat1, Hlat2, Hlon1, Hlon2, tile_loop_single.
  eexists. split; [reflexivity |].
  unfold tile_dict. cbn [tiles sdf_filenames sdf_hd_filenames].
  rewrite !list_to_set_cons, !list_to_set_nil, !(right_id_L ∅ (∪)).
  split; [by rewrite lookup_insert_eq |].
  split; [rewrite lookup_insert_ne by done; by rewrite lookup_insert_eq |].
  rewrite !lookup_insert_ne by done. by rewrite lookup_insert_eq.
Qed.

Lemma resolver_zero_radius_single_cell_witness :
  ∃ d, _calculate_required_terrain_tiles demo_libm (515 # 10) (-1145 # 10) 0 = Ok d ∧
       d !! "hgt.gz"
         = Some {[ hgt_name (math_floor (515 # 10)) (math_floor (-1145 # 10)) ]} ∧
       d !! "sdf"
         = Some {[ sdf_name (math_floor (515 # 10)) (math_floor (-1145 # 10)) ]} ∧
       d !! "hd-sdf"
         = Some {[ sdf_hd_name (math_floor (515 # 10)) (math_floor (-1145 # 10)) ]}.
Proof.
  apply (resolver_zero_radius_single_cell demo_libm (515 # 10) (-1145 # 10)).
  apply demo_libm_cos_nonzero. reflexivity.
Defined.

Lemma delta_deg_nonneg radius :
  (0 <= radius)%Q → (0 <= (radius / inject_Z earth_radius) * (180 / math_pi))%Q.
Proof.
  intros Hr.
  assert (E : ((radius / inject_Z earth_radius) * (180 / math_pi)
               == radius * ((180 / math_pi) / inject_Z earth_radius))%Q) by (field; done).
  rewrite E. apply Qmult_le_0_compat; [done | discriminate].
Qed.

(** X17.  For a radius that is not negative and a cosine that is positive
    at the centre latitude, the box contains the centre and the cell of the
    centre is always among the tiles requested: its raw-tile name is in
    the "hgt.gz" set and its descriptor names in the other two. *)
Theorem resolver_covers_centre_cell lm (lat lon radius : Q) :
  (0 <= radius)%Q →
  (0 < m_cos lm (math_radians lat))%Q →
  ∃ box d hgt sdf hd,
    bounding_box_of lm lat lon radius = Ok box ∧
    (lat_min box <= lat)%Q ∧ (lat <= lat_max box)%Q ∧
    (lon_min box <= lon)%Q ∧ (lon <= lon_max box)%Q ∧
    _calculate_required_terrain_tiles lm lat lon radius = Ok d ∧
    d !! "hgt.gz" = Some hgt ∧ d !! "sdf" = Some sdf ∧ d !! "hd-sdf" = Some hd ∧
    hgt_name (math_floor lat) (math_floor lon) ∈ hgt ∧
    sdf_name (math_floor lat) (math_floor lon) ∈ sdf ∧
    sdf_hd_name (math_floor lat) (math_floor lon) ∈ hd.
Proof.
  intros Hr Hcos.
  assert (Hnz : ¬ (m_cos lm (math_radians lat) == 0)%Q) by lra.
  pose proof (delta_deg_nonneg radius Hr) as Hdelta.
  set (delta := ((radius / inject_Z earth_radius) * (180 / math_pi))%Q) in *.
  assert (Hd2 : (0 <= delta / m_cos lm (math_radians lat))%Q).
  { apply Qle_shift_div_l; [done |]. lra. }
  set (box := BBox (lat - delta) (lat + delta)
                   (lon - delta / m_cos lm (math_radians lat))
                   (lon + delta / m_cos lm (math_radians lat))).
  assert (Hbox : bounding_box_of lm lat lon radius = Ok box).
  { unfold bounding_box_of. fold delta. rewrite !py_div_ok by done. reflexivity. }
  set (l := tile_loop (math_floor (lat_min box)) (math_floor (lat_max box))
                      (math_floor (lon_min box)) (math_floor (lon_max box))).
  destruct (tile_dict_lookups l) as (Hh & Hs & Hhd).
  assert (Hin : (math_floor lat, math_floor lon) ∈ box_cells box).
  { apply elem_of_covered_cells. unfold math_floor. cbn [lat_min lat_max lon_min lon_max box].
    repeat split; apply Qfloor_resp_le; lra. }
  assert (Hl : l = extend_lists (TileLists [] [] []) (box_cells box))
    by apply tile_loop_cells.
  exists box, (tile_dict l), (list_to_set (tiles l)), (list_to_set (sdf_filenames l)),
    (list_to_set (sdf_hd_filenames l)).
  split; [done |].
  cbn [lat_min lat_max lon_min lon_max box].
  split; [lra |]. split; [lra |]. split; [lra |]. split; [lra |].
  split. { unfold _calculate_required_terrain_tiles. by rewrite Hbox. }
  split; [done |]. split; [done |]. split; [done |].
  rewrite Hl. cbn [extend_lists tiles sdf_filenames sdf_hd_filenames app].
  split; [|split]; apply elem_of_list_to_set, list_elem_of_fmap;
    exists (math_floor lat, math_floor lon); done.
Qed.

Lemma resolver_covers_centre_cell_witness :
  ∃ box d hgt sdf hd,
    bounding_box_of demo_libm (515 # 10) (-1145 # 10) (1000 # 1) = Ok box ∧
    (lat_min box <= 515 # 10)%Q ∧ (515 # 10 <= lat_max box)%Q ∧
    (lon_min box <= -1145 # 10)%Q ∧ (-1145 # 10 <= lon_max box)%Q ∧
    _calculate_required_terrain_tiles demo_libm (515 # 10) (-1145 # 10) (1000 # 1) = Ok d ∧
    d !! "hgt.gz" = Some hgt ∧ d !! "sdf" = Some sdf ∧ d !! "hd-sdf" = Some hd ∧
    hgt_name (math_floor (515 # 10)) (math_floor (-1145 # 10)) ∈ hgt ∧
    sdf_name (math_floor (515 # 10)) (math_floor (-1145 # 10)) ∈ sdf ∧
    sdf_hd_name (math_floor (515 # 10)) (math_floor (-1145 # 10)) ∈ hd.
Proof.
  apply (resolver_covers_centre_cell demo_libm (515 # 10) (-1145 # 10) (1000 # 1)).
  - discriminate.
  - reflexivity.
Defined.

(** X18.  The number of tiles requested is the number of rows times the
    number of columns of the floored box, the same for the three sets; it
    is zero as soon as one upper bound lies below its lower bound, as
    happens for a negative radius. *)
Theorem resolver_tile_count (a b c d : Z) :
  size (list_to_set (tiles (tile_loop a b c d)) : gset string)
    = (Z.to_nat (b + 1 - a) * Z.to_nat (d + 1 - c))%nat ∧
  size (list_to_set (sdf_filenames (tile_loop a b c d)) : gset string)
    = (Z.to_nat (b + 1 - a) * Z.to_nat (d + 1 - c))%nat ∧
  size (list_to_set (sdf_hd_filenames (tile_loop a b c d)) : gset string)
    = (Z.to_nat (b + 1 - a) * Z.to_nat (d + 1 - c))%nat ∧
  (b < a ∨ d < c → tile_loop a b c d = TileLists [] [] []).
Proof.
  rewrite tile_loop_cells. cbn [extend_lists tiles sdf_filenames sdf_hd_filenames app].
  pose proof (NoDup_covered_cells a b c d) as Hnd.
  destruct (names_one_entry_per_cell hgt_name hgt_name_inj _ Hnd) as [-> _].
  destruct (names_one_entry_per_cell sdf_name sdf_name_inj _ Hnd) as [-> _].
  destruct (names_one_entry_per_cell sdf_hd_name sdf_hd_name_inj _ Hnd) as [-> _].
  rewrite length_covered_cells.
  split; [done |]. split; [done |]. split; [done |].
  intros Hinv.
  assert (Hnil : covered_cells a b c d = []).
  { apply length_zero_iff_nil. rewrite length_covered_cells. nia. }
  by rewrite Hnil.
Qed.

Lemma str_int_head z : ∃ c r, str_int z = String c r ∧ digit_or_minus c = true.
Proof.
  pose proof (str_int_chars z) as Hall.
  destruct (str_int z) as [|c r] eqn:E.
  - exfalso. unfold str_int in E. destruct z as [|p|p]; cbn in E; try discriminate.
    pose proof (DecimalPos.Unsigned.to_uint_nonnil p) as Hn.
    destruct (Pos.to_uint p); try discriminate. done.
  - cbn [all_chars] in Hall. apply andb_true_iff in Hall as [Hc _]. eauto.
Qed.

(** X19.  The three kinds of name never coincide, for any cells: a raw-tile
    name is never a descriptor name, and a standard descriptor name is
    never a high-resolution one.  Raw tiles and the two kinds of converted
    artifact share one cache keyed by these names, so an entry of one kind
    never overwrites or answers for an entry of another. *)
Theorem tile_names_never_collide (a b a' b' : Z) :
  hgt_name a b ≠ sdf_name a' b' ∧
  hgt_name a b ≠ sdf_hd_name a' b' ∧
  sdf_name a b ≠ sdf_hd_name a' b'.
Proof.
  assert (Hhead : ∀ sfx, hgt_name a b ≠ sdf_stem a' b' +:+ sfx).
  { intros sfx H. unfold hgt_name, sdf_stem in H. cbv zeta in H.
    rewrite !string_app_assoc in H.
    destruct (str_int_head a') as (c & r & E & Hc). rewrite E in H.
    destruct (0 <=? a); norm_app; injection H as <- _; discriminate. }
  split; [apply Hhead |]. split; [apply Hhead |].
  unfold sdf_name, sdf_hd_name, sdf_stem. cbv zeta. rewrite !string_app_assoc.
  norm_app. intros H.
  apply (app_sep_inj not_colon) in H as (_ & _ & H); auto using str_int_not_colon.
  apply (app_sep_inj not_colon) in H as (_ & _ & H); auto using str_int_not_colon.
  apply (app_sep_inj not_colon) in H as (_ & _ & H); auto using str_int_not_colon.
  change (str_int (b + 1) +:+ String "." "sdf"
          = str_int (b' + 1) +:+ String "-" (String "h" "d.sdf")) in H.
  assert (H' : str_int (b + 1) +:+ String "." "sdf"
               = (str_int (b' + 1) +:+ "-") +:+ String "h" "d.sdf").
  { rewrite H, string_app_assoc. reflexivity. }
  apply (app_sep_inj digit_or_minus) in H' as (_ & Hc & _); try done.
  - apply str_int_chars.
  - rewrite all_chars_app, str_int_chars. reflexivity.
Qed.

(* --------------------------------------------------------------------- *)
(** ** More on the descriptor generators *)
(* --------------------------------------------------------------------- *)

(** X20.  [_create_qth] and [_create_lrp] test the target directory before
    anything else: when it is missing they raise [FileNotFoundError], when
    it exists but is not writable [PermissionError]; in both cases no text
    has been formatted (an unknown climate goes unnoticed) and the world is
    left exactly as it was. *)
Theorem qth_and_lrp_check_directory_first
    lm path name latitude longitude elevation p w :
  writable_in (fs w) path = false →
  ∃ e, _create_qth path name latitude longitude elevation w = (Raise e, w) ∧
       _create_lrp lm path p w = (Raise e, w) ∧
       ((fs w !! path = None ∧ exn_cls e = FileNotFoundError) ∨
        (is_Some (fs w !! path) ∧ exn_cls e = PermissionError)).
Proof.
  intros Hwr. destruct (fs w !! path) as [n|] eqn:Hp.
  - exists (Exn PermissionError ("Directory is not writable: " +:+ path)).
    split; [apply create_qth_read_only_directory; [rewrite Hp; eauto | done] |].
    split; [apply create_lrp_read_only_directory; [rewrite Hp; eauto | done] |].
    right. eauto.
  - exists (Exn FileNotFoundError ("Directory does not exist: " +:+ path)).
    split; [by apply create_qth_missing_directory |].
    split; [by apply create_lrp_missing_directory |].
    left. done.
Qed.

Lemma qth_and_lrp_check_directory_first_witness :
  ∃ e, _create_qth "/frozen" "tx" (51086311 # 1000000) (-114129409 # 1000000) (5 # 1)
                   demo_world = (Raise e, demo_world) ∧
       _create_lrp demo_libm "/frozen" tropical_lrp demo_world = (Raise e, demo_world) ∧
       ((fs demo_world !! "/frozen" = None ∧ exn_cls e = FileNotFoundError) ∨
        (is_Some (fs demo_world !! "/frozen") ∧ exn_cls e = PermissionError)).
Proof.
  apply (qth_and_lrp_check_directory_first demo_libm "/frozen" "tx" (51086311 # 1000000)
           (-114129409 # 1000000) (5 # 1) tropical_lrp demo_world).
  reflexivity.
Defined.

(** X21.  In a directory that passes the checks, [_create_lrp] raises
    [KeyError] for a climate or a polarization that is not a name of its
    tables, and writes nothing: the world is left as it was. *)
Theorem create_lrp_unknown_name_raises_KeyError lm path p w :
  is_Some (fs w !! path) →
  writable_in (fs w) path = true →
  climate_map !! radio_climate p = None ∨ polarization_map !! polarization p = None →
  ∃ e, _create_lrp lm path p w = (Raise e, w) ∧ exn_cls e = KeyError.
Proof.
  intros Hex Hwr Hbad.
  assert (Hc : ∃ e, lrp_contents lm p = Raise e ∧ exn_cls e = KeyError).
  { unfold lrp_contents, dict_get.
    destruct (climate_map !! radio_climate p) as [c|]; cbn [rbind]; [|eauto].
    destruct Hbad as [? | ->]; [done |]. cbn [rbind]. eauto. }
  destruct Hc as (e & He & Hcls). exists e. split; [|done].
  unfold _create_lrp, bind, path_exists, access_W, lift.
  rewrite bool_decide_eq_true_2 by done. cbn [negb].
  unfold writable_in in Hwr. rewrite Hwr. cbn [negb]. by rewrite He.
Qed.

Lemma create_lrp_unknown_name_raises_KeyError_witness :
  ∃ e, _create_lrp demo_libm "/work" tropical_lrp demo_world = (Raise e, demo_world) ∧
       exn_cls e = KeyError.
Proof.
  apply (create_lrp_unknown_name_raises_KeyError demo_libm "/work" tropical_lrp demo_world).
  - vm_compute. eauto.
  - reflexivity.
  - left. reflexivity.
Defined.

(** X22.  For a longitude between -180 and 180 the value [_create_qth]
    writes lies in (0, 360]: a western longitude gives its magnitude, at
    most 180; an eastern longitude or the prime meridian gives
    360 - longitude, at least 180, so longitude 0 is written as 360. *)
Theorem west_positive_range (longitude : Q) :
  (-180 <= longitude)%Q → (longitude <= 180)%Q →
  (0 < west_positive longitude)%Q ∧ (west_positive longitude <= 360)%Q ∧
  (((longitude < 0)%Q ∧ (west_positive longitude == - longitude)%Q ∧
    (west_positive longitude <= 180)%Q) ∨
   ((0 <= longitude)%Q ∧ (west_positive longitude == 360 - longitude)%Q ∧
    (180 <= west_positive longitude)%Q)).
Proof.
  intros Hlo Hhi.
  destruct (west_positive_cases longitude) as [[Hneg ->] | [Hpos ->]].
  - assert (E : (Qabs longitude == - longitude)%Q) by (apply Qabs_neg; lra).
    rewrite E. split; [lra |]. split; [lra |]. left. split; [done |]. split; [reflexivity | lra].
  - split; [lra |]. split; [lra |]. right. split; [done |]. split; [reflexivity | lra].
Qed.

Lemma west_positive_range_witness :
  (0 < west_positive 0)%Q ∧ (west_positive 0 <= 360)%Q ∧
  (((0 < 0)%Q ∧ (west_positive 0 == - 0)%Q ∧ (west_positive 0 <= 180)%Q) ∨
   ((0 <= 0)%Q ∧ (west_positive 0 == 360 - 0)%Q ∧ (180 <= west_positive 0)%Q)).
Proof.
  apply (west_positive_range 0); discriminate.
Defined.

(* --------------------------------------------------------------------- *)
(** ** The colour table *)
(* --------------------------------------------------------------------- *)

Lemma spaces_no_newline k : all_chars no_newline (spaces k) = true.
Proof. induction k; [done |]. cbn [spaces all_chars]. by rewrite IHk. Qed.

Lemma format_d_no_newline plus width z :
  all_chars no_newline (format_d plus width z) = true.
Proof.
  unfold format_d. rewrite !all_chars_app, spaces_no_newline, str_int_no_newline.
  by destruct (z <? 0), plus.
Qed.

Lemma dcf_row_body_no_newline v rgb : all_chars no_newline (dcf_row_body v rgb) = true.
Proof.
  destruct rgb as [[r g] b]. unfold dcf_row_body.
  rewrite !all_chars_app, !format_d_no_newline. reflexivity.
Qed.

Lemma dcf_row_split v rgb rest :
  dcf_row v rgb +:+ rest = dcf_row_body v rgb +:+ nl +:+ rest.
Proof.
  destruct rgb as [[r g] b]. unfold dcf_row, dcf_row_body.
  by rewrite !string_app_assoc.
Qed.

Lemma dcf_rows_lines (l : list (Q * (Z * Z * Z))) :
  file_lines (concat_strings ((fun vr => dcf_row vr.1 vr.2) <$> l))
  = (fun vr => dcf_row_body vr.1 vr.2) <$> l.
Proof.
  induction l as [|[v rgb] l IH]; [done |].
  cbn [fmap list_fmap concat_strings fst snd].
  rewrite dcf_row_split, file_lines_line by apply dcf_row_body_no_newline.
  f_equal. exact IH.
Qed.

Lemma dcf_header_split rest :
  file_lines (dcf_header +:+ rest) = dcf_header_lines ++ file_lines rest.
Proof.
  unfold dcf_header. rewrite !string_app_assoc.
  rewrite !file_lines_line by reflexivity. reflexivity.
Qed.

Lemma linspace_length start stop num : length (linspace start stop num) = num.
Proof. unfold linspace. by rewrite length_fmap, length_seq. Qed.

Lemma normalize_length vmin vmax values normed :
  normalize vmin vmax values = Ok normed → length normed = length values.
Proof.
  unfold normalize. destruct (Qeq_bool vmin vmax).
  - intros [= <-]. by rewrite length_fmap.
  - destruct (Qltb vmax vmin); [discriminate |]. intros [= <-]. by rewrite length_fmap.
Qed.

(** X23.  When [_create_dcf] returns, the file "splat.dcf" holds exactly 36
    lines: the four comment lines of the header, then 32 rows, one per
    sampled level, each of the form [dBm: red, green, blue]. *)
Theorem create_dcf_writes_header_and_32_rows E path colormap_name min_dbm max_dbm w w' :
  _create_dcf E path colormap_name min_dbm max_dbm w = (Ok tt, w') →
  ∃ contents (rows : list (Q * (Z * Z * Z))),
    file_at w' (path_join path "splat.dcf") = Some contents ∧
    file_lines contents
      = dcf_header_lines ++ ((fun vr => dcf_row_body vr.1 vr.2) <$> rows) ∧
    length rows = 32%nat ∧
    rows.*1 = linspace max_dbm min_dbm 32 ∧
    length (file_lines contents) = 36%nat.
Proof.
  unfold _create_dcf. cbv zeta. intros H.
  apply bind_ok_inv in H as ([] & w1 & _ & H).
  apply bind_ok_inv in H as (cmap & w2 & Hcm & H). apply lift_ok_inv in Hcm as [Hcm ->].
  apply bind_ok_inv in H as (normed & w3 & Hn & H). apply lift_ok_inv in Hn as [Hn ->].
  apply (try_except_reraise_ok_inv _ _ (fun e => e)) in H.
  apply write_file_ok_inv in H as (Hfile & _).
  pose proof (normalize_length _ _ _ _ Hn) as Hlen. rewrite linspace_length in Hlen.
  set (rows := zip (linspace max_dbm min_dbm 32) (rgb_bytes cmap normed)) in *.
  assert (Hrows : length rows = 32%nat).
  { unfold rows. rewrite length_zip_with, linspace_length.
    unfold rgb_bytes. rewrite length_fmap, Hlen. reflexivity. }
  assert (Hfst : rows.*1 = linspace max_dbm min_dbm 32).
  { unfold rows. apply fst_zip. rewrite linspace_length.
    unfold rgb_bytes. rewrite length_fmap, Hlen. done. }
  eexists _, rows. split; [exact Hfile |].
  rewrite dcf_header_split, dcf_rows_lines.
  split; [done |]. split; [done |]. split; [done |].
  rewrite length_app, length_fmap, Hrows. reflexivity.
Qed.

Lemma create_dcf_writes_header_and_32_rows_witness :
  ∃ contents (rows : list (Q * (Z * Z * Z))),
    file_at (_create_dcf demo_env "/work" "gray" (-130 # 1) (-80 # 1) demo_world).2
            (path_join "/work" "splat.dcf") = Some contents ∧
    file_lines contents
      = dcf_header_lines ++ ((fun vr => dcf_row_body vr.1 vr.2) <$> rows) ∧
    length rows = 32%nat ∧
    rows.*1 = linspace (-80 # 1) (-130 # 1) 32 ∧
    length (file_lines contents) = 36%nat.
Proof.
  apply (create_dcf_writes_header_and_32_rows demo_env "/work" "gray" (-130 # 1) (-80 # 1)
           demo_world).
  vm_compute. reflexivity.
Defined.

Lemma Qltb_true x y : Qltb x y = true ↔ (x < y)%Q.
Proof.
  unfold Qltb. rewrite negb_true_iff. split.
  - intros H. apply Qnot_le_lt. rewrite <- Qle_bool_iff. congruence.
  - intros H. destruct (Qle_bool y x) eqn:E; [|done].
    apply Qle_bool_iff in E. lra.
Qed.

Lemma Qltb_false x y : Qltb x y = false ↔ (y <= x)%Q.
Proof.
  unfold Qltb. rewrite negb_false_iff. apply Qle_bool_iff.
Qed.

Lemma int_of_float_mono x y : (x <= y)%Q → int_of_float x ≤ int_of_float y.
Proof.
  intros Hxy. unfold int_of_float.
  destruct (Qltb x 0) eqn:Ex; destruct (Qltb y 0) eqn:Ey.
  - assert (H : Qfloor (- y) ≤ Qfloor (- x)) by (apply Qfloor_resp_le; lra). lia.
  - apply Qltb_true in Ex. apply Qltb_false in Ey.
    assert (H1 : Qfloor 0 ≤ Qfloor (- x)) by (apply Qfloor_resp_le; lra).
    assert (H2 : Qfloor 0 ≤ Qfloor y) by (apply Qfloor_resp_le; lra).
    change (Qfloor 0) with 0 in H1, H2. lia.
  - apply Qltb_false in Ex. apply Qltb_true in Ey. lra.
  - by apply Qfloor_resp_le.
Qed.

Lemma linspace_lookup start stop num i v :
  linspace start stop num !! i = Some v →
  (i < num)%nat ∧
  v = (start + inject_Z (Z.of_nat i) *
               ((stop - start) / inject_Z (Z.of_nat (num - 1))))%Q.
Proof.
  unfold linspace. rewrite list_lookup_fmap.
  destruct (seq 0 num !! i) as [k|] eqn:E; [|discriminate].
  apply lookup_seq in E as [-> Hi]. cbn [fmap option_fmap option_map].
  intros [= <-]. done.
Qed.

(** X24.  For [min_dbm <= max_dbm] the 32 levels of the colour table run
    from [max_dbm] down to [min_dbm]: a later row never has a higher
    threshold than an earlier one, and every threshold lies between
    [int(min_dbm)] and [int(max_dbm)]. *)
Theorem dcf_thresholds_non_increasing (min_dbm max_dbm : Q) (i j : nat) (vi vj : Q) :
  (min_dbm <= max_dbm)%Q →
  (i ≤ j)%nat →
  linspace max_dbm min_dbm 32 !! i = Some vi →
  linspace max_dbm min_dbm 32 !! j = Some vj →
  int_of_float vj ≤ int_of_float vi ∧
  int_of_float min_dbm ≤ int_of_float vj ∧
  int_of_float vi ≤ int_of_float max_dbm ∧
  (i = 0%nat → (vi == max_dbm)%Q) ∧
  (j = 31%nat → (vj == min_dbm)%Q).
Proof.
  intros Hmm Hij Hi Hj.
  apply linspace_lookup in Hi as [Hi ->]. apply linspace_lookup in Hj as [Hj ->].
  change (inject_Z (Z.of_nat (32 - 1))) with (31 # 1).
  set (step := ((min_dbm - max_dbm) / (31 # 1))%Q).
  assert (Hstep : (step == (min_dbm - max_dbm) * (1 # 31))%Q) by (unfold step; field).
  assert (Hqi : (0 <= inject_Z (Z.of_nat i))%Q)
    by (change 0%Q with (inject_Z 0); rewrite <- Zle_Qle; lia).
  assert (Hqij : (inject_Z (Z.of_nat i) <= inject_Z (Z.of_nat j))%Q)
    by (rewrite <- Zle_Qle; lia).
  assert (Hqj : (inject_Z (Z.of_nat j) <= 31)%Q)
    by (change 31%Q with (inject_Z 31); rewrite <- Zle_Qle; lia).
  split; [apply int_of_float_mono; nra |].
  split; [apply int_of_float_mono; nra |].
  split; [apply int_of_float_mono; nra |].
  split.
  - intros ->. change (inject_Z (Z.of_nat 0)) with 0%Q. ring.
  - intros ->. change (inject_Z (Z.of_nat 31)) with 31%Q. rewrite Hstep. field.
Qed.

Lemma dcf_thresholds_non_increasing_witness :
  int_of_float (-80 + inject_Z (Z.of_nat 5) * ((-130 - -80) / inject_Z (Z.of_nat (32 - 1))))
  ≤ int_of_float (-80 + inject_Z (Z.of_nat 3) * ((-130 - -80) / inject_Z (Z.of_nat (32 - 1)))) ∧
  int_of_float (-130)
  ≤ int_of_float (-80 + inject_Z (Z.of_nat 5) * ((-130 - -80) / inject_Z (Z.of_nat (32 - 1)))) ∧
  int_of_float (-80 + inject_Z (Z.of_nat 3) * ((-130 - -80) / inject_Z (Z.of_nat (32 - 1))))
  ≤ int_of_float (-80) ∧
  (3%nat = 0%nat →
   (-80 + inject_Z (Z.of_nat 3) * ((-130 - -80) / inject_Z (Z.of_nat (32 - 1))) == -80)%Q) ∧
  (5%nat = 31%nat →
   (-80 + inject_Z (Z.of_nat 5) * ((-130 - -80) / inject_Z (Z.of_nat (32 - 1))) == -130)%Q).
Proof.
  apply (dcf_thresholds_non_increasing (-130) (-80) 3 5).
  - discriminate.
  - lia.
  - reflexivity.
  - reflexivity.
Defined.

(** X25.  With [min_dbm] above [max_dbm] and a known colour map,
    [_create_dcf] raises the [ValueError] of the normalisation and writes
    nothing: the file system is as it was. *)
Theorem create_dcf_inverted_range_raises_ValueError
    E path colormap_name cmap min_dbm max_dbm w :
  get_cmap E colormap_name = Ok cmap →
  (max_dbm < min_dbm)%Q →
  ∃ w', _create_dcf E path colormap_name min_dbm max_dbm w
        = (Raise (Exn ValueError "minvalue must be less than or equal to maxvalue"), w') ∧
        fs w' = fs w ∧ events w' = events w ++ [EvColormap colormap_name].
Proof.
  intros Hcm Hlt. unfold _create_dcf. cbv zeta.
  unfold bind, log_event, lift. rewrite Hcm.
  assert (Hn : normalize min_dbm max_dbm (linspace max_dbm min_dbm 32)
               = Raise (Exn ValueError "minvalue must be less than or equal to maxvalue")).
  { unfold normalize.
    destruct (Qeq_bool min_dbm max_dbm) eqn:Heq; [apply Qeq_bool_iff in Heq; lra |].
    apply Qltb_true in Hlt. by rewrite Hlt. }
  rewrite Hn. eexists. split; [reflexivity |]. done.
Qed.

Lemma create_dcf_inverted_range_raises_ValueError_witness :
  ∃ w', _create_dcf demo_env "/work" "gray" (-80 # 1) (-130 # 1) demo_world
        = (Raise (Exn ValueError "minvalue must be less than or equal to maxvalue"), w') ∧
        fs w' = fs demo_world ∧ events w' = events demo_world ++ [EvColormap "gray"].
Proof.
  apply (create_dcf_inverted_range_raises_ValueError demo_env "/work" "gray" gray_cmap
           (-80 # 1) (-130 # 1) demo_world).
  - reflexivity.
  - reflexivity.
Defined.

(* --------------------------------------------------------------------- *)
(** ** More on the output compositor *)
(* --------------------------------------------------------------------- *)



(** X27.  When the bounds document does not exist, [_create_geotiff] raises
    the [FileNotFoundError] of the read as it is, not wrapped in a
    [RuntimeError]; the image has not been opened and nothing has been
    written. *)
Theorem create_geotiff_missing_bounds_document
    E ppm_file kml_file output_tiff colormap_name min_dbm max_dbm w :
  fs w !! kml_file = None →
  ∃ e w', _create_geotiff E ppm_file kml_file output_tiff colormap_name min_dbm max_dbm w
          = (Raise e, w') ∧
          exn_cls e = FileNotFoundError ∧ fs w' = fs w ∧
          events w' = events w ++ [EvParseKml kml_file].
Proof.
  intros Hk. unfold _create_geotiff.
  unfold bind at 1. unfold try_except at 1. unfold bind at 1.
  rewrite log_event_run. unfold bind at 1. unfold read_file at 1. cbn [fs].
  rewrite Hk. cbn [any_Exception exn_cls raise].
  eexists _, _. split; [reflexivity |]. done.
Qed.

Lemma create_geotiff_missing_bounds_document_witness :
  ∃ e w', _create_geotiff demo_env "/work/output.ppm" "/work/output.kml"
            "/work/output.tiff" "gray" (-130 # 1) (-80 # 1) demo_world
          = (Raise e, w') ∧
          exn_cls e = FileNotFoundError ∧ fs w' = fs demo_world ∧
          events w' = events demo_world ++ [EvParseKml "/work/output.kml"].
Proof.
  apply (create_geotiff_missing_bounds_document demo_env "/work/output.ppm"
           "/work/output.kml" "/work/output.tiff" "gray" (-130 # 1) (-80 # 1) demo_world).
  reflexivity.
Defined.



